(** * DevAtlas: the term query engine of [server.js]

    A shallow embedding of the handlers of [/api/terms], [/api/terms/:id],
    [/api/stats] and [/api/random] in [server.js], together with the
    JavaScript built-ins they call, and the properties of the query engine
    stated over that embedding.

    Strings are sequences of bytes (the UTF-8 encoding of the JavaScript
    string); substring search on well-formed UTF-8 agrees with substring
    search on the UTF-16 code units the engine uses. *)

From Stdlib Require Import ZArith Ascii String List Bool Lia Permutation.
From stdpp Require Import base list strings.

Local Open Scope string_scope.
Local Open Scope list_scope.

(** ** JavaScript built-ins used by the handlers *)

Module Js.

(** A Number as [parseInt] can produce it: [NaN] or an integer.  The integer
    is kept exact; the engine's doubles are exact up to 2^53, far above any
    catalog length. *)
Inductive number : Type :=
| NaN
| Num (z : Z).

(** [a + b] *)
Definition add (a b : number) : number :=
  match a, b with
  | Num x, Num y => Num (x + y)
  | _, _ => NaN
  end.

(** [a < b]; any comparison with [NaN] is [false]. *)
Definition lt (a b : number) : bool :=
  match a, b with
  | Num x, Num y => (x <? y)%Z
  | _, _ => false
  end.

(** ToIntegerOrInfinity: [NaN] becomes [0]. *)
Definition ToIntegerOrInfinity (n : number) : Z :=
  match n with
  | NaN => 0%Z
  | Num z => z
  end.

(** [Array.prototype.slice(start, end)]: negative indices count from the
    end, both bounds are clamped to [0 .. len]. *)
Definition slice {A : Type} (l : list A) (start end_ : number) : list A :=
  let len := Z.of_nat (length l) in
  let relativeStart := ToIntegerOrInfinity start in
  let k := if (relativeStart <? 0)%Z then Z.max (len + relativeStart) 0
           else Z.min relativeStart len in
  let relativeEnd := ToIntegerOrInfinity end_ in
  let final := if (relativeEnd <? 0)%Z then Z.max (len + relativeEnd) 0
               else Z.min relativeEnd len in
  take (Z.to_nat (Z.max (final - k) 0)) (drop (Z.to_nat k) l).

(** [s.includes(searchString)] *)
Fixpoint includes (s searchString : string) : bool :=
  String.prefix searchString s ||
  match s with
  | EmptyString => false
  | String _ s' => includes s' searchString
  end.

(** [arr.includes(x)] on an array of strings *)
Definition array_includes (arr : list string) (x : string) : bool :=
  existsb (String.eqb x) arr.

(** Truthiness of a string: every string but the empty one. *)
Definition truthy (s : string) : bool :=
  match s with
  | EmptyString => false
  | String _ _ => true
  end.

(** Truthiness of an optional (possibly [undefined]) string. *)
Definition truthy_opt (o : option string) : bool :=
  match o with
  | None => false
  | Some s => truthy s
  end.

Definition code (c : ascii) : Z := Z.of_N (N_of_ascii c).

(** WhiteSpace and LineTerminator code points, as UTF-8 byte sequences. *)
Definition is_ascii_space (c : ascii) : bool :=
  let n := code c in
  ((9 <=? n) && (n <=? 13) || (n =? 32))%Z.

(** third byte of the white space characters encoded as E2 80 xx:
    U+2000..U+200A, U+2028, U+2029, U+202F *)
Definition is_e2_80_space (c : ascii) : bool :=
  let n := code c in
  ((128 <=? n) && (n <=? 138) || (n =? 168) || (n =? 169) || (n =? 175))%Z.

(** Drop leading white space (the StrWhiteSpaceChar prefix). *)
Fixpoint skipWhiteSpace (s : string) : string :=
  match s with
  | EmptyString => EmptyString
  | String c r =>
      if is_ascii_space c then skipWhiteSpace r
      else
        match r with
        | String c2 r2 =>
            if ((code c =? 194) && (code c2 =? 160))%Z then skipWhiteSpace r2
            else
              match r2 with
              | String c3 r3 =>
                  if ((code c =? 225) && (code c2 =? 154) && (code c3 =? 128)
                      || (code c =? 226) && (code c2 =? 128) && is_e2_80_space c3
                      || (code c =? 226) && (code c2 =? 129) && (code c3 =? 159)
                      || (code c =? 227) && (code c2 =? 128) && (code c3 =? 128)
                      || (code c =? 239) && (code c2 =? 187) && (code c3 =? 191))%Z
                  then skipWhiteSpace r3
                  else s
              | EmptyString => s
              end
        | EmptyString => s
        end
  end.

(** Drop trailing white space. *)
Fixpoint trimEnd (s : string) : string :=
  match s with
  | EmptyString => EmptyString
  | String c r =>
      match skipWhiteSpace s with
      | EmptyString => EmptyString
      | String _ _ => String c (trimEnd r)
      end
  end.

(** [s.trim()] *)
Definition trim (s : string) : string := trimEnd (skipWhiteSpace s).

(** Value of a digit in the given radix, if it is one. *)
Definition digitValue (radix : Z) (c : ascii) : option Z :=
  let n := code c in
  let v := if ((48 <=? n) && (n <=? 57))%Z then Some (n - 48)%Z
           else if ((97 <=? n) && (n <=? 122))%Z then Some (n - 87)%Z
           else if ((65 <=? n) && (n <=? 90))%Z then Some (n - 55)%Z
           else None in
  match v with
  | Some d => if (d <? radix)%Z then Some d else None
  | None => None
  end.

(** The longest prefix of digits, read in the radix; [None] when the string
    does not start with a digit. *)
Fixpoint parseDigits (radix : Z) (s : string) (acc : option Z) : option Z :=
  match s with
  | EmptyString => acc
  | String c r =>
      match digitValue radix c with
      | Some d => parseDigits radix r (Some (radix * default 0%Z acc + d)%Z)
      | None => acc
      end
  end.

(** [parseInt(string)] with no radix argument: leading white space, an
    optional sign, an optional [0x]/[0X] prefix selecting radix 16, then the
    longest run of digits; [NaN] when there is none. *)
Definition parseInt (inputString : string) : number :=
  let str := skipWhiteSpace inputString in
  let sign := match str with
              | String "-" _ => (-1)%Z
              | _ => 1%Z
              end in
  let str := match str with
             | String "+" r => r
             | String "-" r => r
             | _ => str
             end in
  let '(R, str) := match str with
                   | String "0" (String "x" r) => (16%Z, r)
                   | String "0" (String "X" r) => (16%Z, r)
                   | _ => (10%Z, str)
                   end in
  match parseDigits R str None with
  | None => NaN
  | Some mathInt => Num (sign * mathInt)
  end.

(** The names every plain object inherits from [Object.prototype]; a
    property read [o[k]] with such a [k] finds a function (or, for
    [__proto__], the prototype object) unless [o] has its own [k]. *)
Definition ObjectPrototypeKeys : list string :=
  [ "constructor"; "__defineGetter__"; "__defineSetter__"; "hasOwnProperty";
    "__lookupGetter__"; "__lookupSetter__"; "isPrototypeOf";
    "propertyIsEnumerable"; "toString"; "valueOf"; "__proto__";
    "toLocaleString" ].

(** Result of the property read [o[k]] on an object literal whose own
    properties hold values of type [A]. *)
Inductive property (A : Type) : Type :=
| Own (v : A)
| Inherited
| Undefined.
Arguments Own {A} v.
Arguments Inherited {A}.
Arguments Undefined {A}.

(** Own properties of an object literal, in enumeration order. *)
Definition object (A : Type) : Type := list (string * A).

Fixpoint getOwn {A : Type} (o : object A) (k : string) : option A :=
  match o with
  | [] => None
  | (k', v) :: o' => if String.eqb k' k then Some v else getOwn o' k
  end.

(** [o[k]] *)
Definition get {A : Type} (o : object A) (k : string) : property A :=
  match getOwn o k with
  | Some v => Own v
  | None => if array_includes ObjectPrototypeKeys k then Inherited else Undefined
  end.

(** [{...o, [k]: v}]: the own properties of [o] in order, with [k] set to
    [v] in place when [o] has it and appended otherwise. *)
Fixpoint set {A : Type} (o : object A) (k : string) (v : A) : object A :=
  match o with
  | [] => [(k, v)]
  | (k', v') :: o' =>
      if String.eqb k' k then (k', v) :: o' else (k', v') :: set o' k v
  end.

(** [Object.keys(o)] and [Object.values(o)] *)
Definition keys {A : Type} (o : object A) : list string := fst <$> o.
Definition values {A : Type} (o : object A) : list A := snd <$> o.

(** Outcome of running a handler body: a value, or a thrown [TypeError]
    (which Express turns into the 500 response of the error middleware). *)
Inductive completion (A : Type) : Type :=
| Normal (v : A)
| Throw (message : string).
Arguments Normal {A} v.
Arguments Throw {A} message.

#[global] Instance completion_ret : MRet completion := fun A v => Normal v.

#[global] Instance completion_bind : MBind completion := fun A B f c =>
  match c with
  | Normal v => f v
  | Throw m => Throw m
  end.

(** ASCII lower-casing, the restriction of [String.prototype.toLowerCase]
    to strings without cased letters outside ASCII. *)
Definition asciiLower (c : ascii) : ascii :=
  let n := code c in
  if ((65 <=? n) && (n <=? 90))%Z then ascii_of_N (N_of_ascii c + 32) else c.

Fixpoint asciiToLowerCase (s : string) : string :=
  match s with
  | EmptyString => EmptyString
  | String c r => String (asciiLower c) (asciiToLowerCase r)
  end.

End Js.


(** ** Data model *)

(** One entry of [programmingTermsDatabase].  [relatedTerms] is read through
    [?.] by the detail handler, so the property may be missing. *)
Module Term.
Record t : Type := mk {
  id : string;
  name : string;
  chinese : string;
  description : string;
  difficulty : string;
  tags : list string;
  example : string;
  useCases : list string;
  relatedTerms : option (list string)
}.
End Term.
Abbreviation Term := Term.t.

(** [req.query] of [GET /api/terms] for a request that gives each parameter
    at most once and without brackets: each parameter is a string or absent
    ([undefined]).  (A repeated or bracketed key, which the query parser
    turns into an array or an object, is not a value of this type.) *)
Module req.
Record query : Type := mkQuery {
  category : option string;
  difficulty : option string;
  search : option string;
  limit : option string;
  offset : option string
}.
End req.

(** JSON values of the response bodies that are built from object literals. *)
#[warnings="-register-all"]
Inductive json : Type :=
| JString (s : string)
| JNumber (n : Z)
| JArray (a : list json)
| JObject (o : list (string * json)).

(** What the variable [filteredTerms] of the list handler can hold: an array
    of terms, or some other truthy object without array methods. *)
Inductive value : Type :=
| Array (a : list Term)
| NotArray.

(** Body of the [/api/terms] response. *)
Module TermsBody.
Record t : Type := mk {
  terms : list Term;
  total : nat;
  hasMore : bool;
  categories : list string;
  difficulties : list string
}.
End TermsBody.

(** Body of the [/api/stats] response. *)
Module StatsBody.
Record counts : Type := mkCounts {
  beginner : nat;
  intermediate : nat;
  advanced : nat
}.
Record t : Type := mk {
  totalTerms : nat;
  categories : nat;
  byDifficulty : counts;
  byCategory : Js.object nat;
  lastUpdated : string
}.
End StatsBody.

(** [res.status(s).json(body)] *)
Record reply : Type := Reply {
  status : Z;
  body : json
}.

(** ** An excerpt of the shipped catalog

    The first two entries of [javascript], the first entry of [datascience]
    and the first entry of [datastructures], in declaration order.  The
    [example] blobs, which no handler inspects, are cut to their first
    line. *)
Module Sample.

Definition js_1 : Term := {|
  Term.id := "js_1";
  Term.name := "closure";
  Term.chinese := "闭包";
  Term.description := "函数与其词法环境的组合，内部函数可以访问外部函数的变量，即使外部函数已经执行完毕";
  Term.difficulty := "intermediate";
  Term.tags := ["scope"; "functions"; "memory"];
  Term.example := "function createCounter() {";
  Term.useCases := ["模块化"; "数据私有化"; "函数工厂"; "事件处理器"];
  Term.relatedTerms := Some ["scope"; "hoisting"; "execution context"]
|}.

Definition js_2 : Term := {|
  Term.id := "js_2";
  Term.name := "hoisting";
  Term.chinese := "变量提升";
  Term.description := "JavaScript引擎在执行代码前将变量和函数声明移到作用域顶部的行为";
  Term.difficulty := "intermediate";
  Term.tags := ["variables"; "functions"; "execution"];
  Term.example := "console.log(x); // undefined (不是错误!)";
  Term.useCases := ["理解执行顺序"; "避免常见错误"; "代码优化"];
  Term.relatedTerms := Some ["scope"; "var"; "let"; "const"]
|}.

Definition datascience_ds_1 : Term := {|
  Term.id := "ds_1";
  Term.name := "machine_learning";
  Term.chinese := "机器学习";
  Term.description := "让计算机通过数据学习模式和做出预测的人工智能分支";
  Term.difficulty := "advanced";
  Term.tags := ["ai"; "ml"; "algorithms"];
  Term.example := "# Python机器学习示例";
  Term.useCases := ["预测分析"; "模式识别"; "自动化决策"; "数据挖掘"];
  Term.relatedTerms := Some ["supervised learning"; "unsupervised learning";
                             "neural networks"; "feature engineering"]
|}.

Definition datastructures_ds_1 : Term := {|
  Term.id := "ds_1";
  Term.name := "array";
  Term.chinese := "数组";
  Term.description := "存储相同类型元素的有序集合，通过索引访问元素";
  Term.difficulty := "beginner";
  Term.tags := ["data-structure"; "collection"; "indexed"];
  Term.example := "// JavaScript数组";
  Term.useCases := ["数据存储"; "批量处理"; "索引访问"; "算法实现"];
  Term.relatedTerms := Some ["list"; "index"; "iteration"; "collection"]
|}.

Definition programmingTermsDatabase : Js.object (list Term) :=
  [ ("javascript", [js_1; js_2]);
    ("datascience", [datascience_ds_1]);
    ("datastructures", [datastructures_ds_1]) ].

(** A stand-in for [sort(() => 0.5 - Math.random())]: insertion sort in
    which every comparison is answered by the next coin of the generator
    state ([true]: the comparator returned a negative number). *)
Fixpoint insert (x : Term) (sorted : list Term) (coins : list bool)
  : list Term * list bool :=
  match sorted with
  | [] => ([x], coins)
  | y :: sorted' =>
      match coins with
      | [] => (x :: sorted, [])
      | true :: coins' => (x :: sorted, coins')
      | false :: coins' =>
          let '(r, coins'') := insert x sorted' coins' in (y :: r, coins'')
      end
  end.

Fixpoint sortFrom (sorted : list Term) (coins : list bool) (l : list Term)
  : list Term :=
  match l with
  | [] => sorted
  | x :: l' => let '(sorted', coins') := insert x sorted coins in
               sortFrom sorted' coins' l'
  end.

Definition sortRandom (coins : list bool) (l : list Term) : list Term :=
  sortFrom [] coins l.

End Sample.

(** [needle] occurs in [hay]: the meaning of [hay.includes(needle)]. *)
Definition Substring (needle hay : string) : Prop :=
  ∃ pre post : string, hay = pre +:+ needle +:+ post.

(** The first [n] elements of [l] that satisfy [p], in the order of [l]. *)
Fixpoint firstMatching {A : Type} (p : A → bool) (n : nat) (l : list A)
  : list A :=
  match n, l with
  | 0, _ => []
  | _, [] => []
  | S n', x :: l' =>
      if p x then x :: firstMatching p n' l' else firstMatching p n l'
  end.

(** The three difficulty levels the statistics count. *)
Definition recognizedDifficulty (d : string) : Prop :=
  d = "beginner" ∨ d = "intermediate" ∨ d = "advanced".

(** ** [GET /api/categories] and the error middleware: data *)

(** The display-name table of the categories handler in [server.js]. *)
Definition displayNames : Js.object string :=
  [ ("javascript", "JavaScript核心");
    ("react", "React生态");
    ("nodejs", "Node.js后端");
    ("database", "数据库技术");
    ("css", "CSS样式");
    ("algorithms", "算法数据结构");
    ("security", "Web安全");
    ("emerging", "新兴技术");
    ("devtools", "开发工具");
    ("testing", "测试质量");
    ("typescript", "TypeScript");
    ("performance", "性能优化");
    ("python", "Python编程");
    ("mobile", "移动开发");
    ("cloud", "云计算");
    ("devops", "DevOps部署");
    ("datascience", "数据科学");
    ("java", "Java编程");
    ("blockchain", "区块链");
    ("gamedev", "游戏开发");
    ("cybersecurity", "网络安全");
    ("fundamentals", "编程基础");
    ("datastructures", "数据结构");
    ("softwareengineering", "软件工程");
    ("networking", "网络编程");
    ("operatingsystems", "操作系统");
    ("compilers", "编译原理");
    ("html", "HTML基础") ].

(** The display-name table of the earlier revision of the server. *)
Definition displayNames_part_000 : Js.object string :=
  [ ("javascript", "JavaScript核心");
    ("react", "React生态");
    ("nodejs", "Node.js后端");
    ("database", "数据库");
    ("css", "CSS样式");
    ("algorithms", "算法数据结构");
    ("security", "Web安全");
    ("emerging", "新兴技术") ].

(** [table[key] || key]: the table's name when it has one (and the name is
    not the empty string), the key itself when the lookup finds nothing,
    and no string at all ([None]) when the lookup finds a property
    inherited from [Object.prototype]. *)
Definition displayNameOf (table : Js.object string) (key : string)
  : option string :=
  match Js.get table key with
  | Js.Own s => if Js.truthy s then Some s else Some key
  | Js.Inherited => None
  | Js.Undefined => Some key
  end.

(** One element of the [/api/categories] response. *)
Module CategoryEntry.
Record t : Type := mk {
  id : string;
  name : string;
  count : nat;
  displayName : option string
}.
End CategoryEntry.

(** What a client of [GET /api/terms] receives: the body of the handler, or
    the reply of the error middleware when the handler has thrown. *)
Inductive served : Type :=
| Served (body : TermsBody.t)
| Failed (r : reply).

(** A filter parameter that the list handler ignores: absent, empty, or
    ["all"]. *)
Definition inactive (o : option string) : Prop :=
  o = None ∨ o = Some "" ∨ o = Some "all".

(** The same request with another limit and offset. *)
Definition withWindow (q : req.query) (limit offset : option string)
  : req.query :=
  req.mkQuery (req.category q) (req.difficulty q) (req.search q) limit offset.

(** ** The handlers of [server.js] *)

Section Engine.

(** [String.prototype.toLowerCase] of the host. *)
Variable toLowerCase : string → string.

(** The catalog: category name to its terms, in declaration order. *)
Variable programmingTermsDatabase : Js.object (list Term).

(** State of the host's [Math.random] generator and the result of
    [[...l].sort(() => 0.5 - Math.random())] started in that state; whatever
    the comparator answers, sorting only rearranges the array. *)
Variable Rng : Type.
Variable sortRandom : Rng → list Term → list Term.
Hypothesis sortRandom_Permutation : ∀ g l, sortRandom g l ≡ₚ l.

(** [const allTerms = Object.values(programmingTermsDatabase).flat()] *)
Definition allTerms : list Term := concat (Js.values programmingTermsDatabase).

(** *** [GET /api/terms] *)

(** [programmingTermsDatabase[category] || []]: an own category is an array
    (truthy even when empty); an inherited property is a truthy non-array;
    [undefined] falls back to the empty array. *)
Definition categoryTerms (category : string) : value :=
  match Js.get programmingTermsDatabase category with
  | Js.Own a => Array a
  | Js.Inherited => NotArray
  | Js.Undefined => Array []
  end.

(** [let filteredTerms = [...allTerms];
     if (category && category !== 'all') filteredTerms = categoryTerms;] *)
Definition selectCategory (category : option string) : value :=
  match category with
  | Some c =>
      if Js.truthy c && negb (String.eqb c "all") then categoryTerms c
      else Array allTerms
  | None => Array allTerms
  end.

(** [filteredTerms.filter(callback)] *)
Definition callFilter (filteredTerms : value) (callback : Term → bool)
  : Js.completion value :=
  match filteredTerms with
  | Array a => Js.Normal (Array (filter (λ term, callback term) a))
  | NotArray => Js.Throw "filteredTerms.filter is not a function"
  end.

(** [filteredTerms.slice(startIndex, endIndex)] *)
Definition callSlice (filteredTerms : value) (startIndex endIndex : Js.number)
  : Js.completion (list Term) :=
  match filteredTerms with
  | Array a => Js.Normal (Js.slice a startIndex endIndex)
  | NotArray => Js.Throw "filteredTerms.slice is not a function"
  end.

(** [filteredTerms.length]; [undefined] on a non-array never reaches a
    response, [callSlice] has thrown before. *)
Definition lengthOf (filteredTerms : value) : nat :=
  match filteredTerms with
  | Array a => length a
  | NotArray => 0
  end.

(** [term => term.difficulty === difficulty] *)
Definition difficultyIs (difficulty : string) (term : Term) : bool :=
  String.eqb (Term.difficulty term) difficulty.

(** [if (difficulty && difficulty !== 'all') filteredTerms = filteredTerms.filter(...)] *)
Definition filterDifficulty (difficulty : option string) (filteredTerms : value)
  : Js.completion value :=
  match difficulty with
  | Some d =>
      if Js.truthy d && negb (String.eqb d "all")
      then callFilter filteredTerms (difficultyIs d)
      else Js.Normal filteredTerms
  | None => Js.Normal filteredTerms
  end.

(** The callback of the search filter. *)
Definition searchMatches (search : string) (term : Term) : bool :=
  let searchLower := toLowerCase search in
  Js.includes (toLowerCase (Term.name term)) searchLower
  || Js.includes (Term.chinese term) search
  || Js.includes (toLowerCase (Term.description term)) searchLower
  || existsb (λ tag, Js.includes (toLowerCase tag) searchLower) (Term.tags term).

(** [if (search) filteredTerms = filteredTerms.filter(...)] *)
Definition filterSearch (search : option string) (filteredTerms : value)
  : Js.completion value :=
  match search with
  | Some s =>
      if Js.truthy s then callFilter filteredTerms (searchMatches s)
      else Js.Normal filteredTerms
  | None => Js.Normal filteredTerms
  end.

(** The value of [filteredTerms] when pagination starts. *)
Definition filteredTerms (q : req.query) : Js.completion value :=
  afterDifficulty ← filterDifficulty (req.difficulty q) (selectCategory (req.category q));
  filterSearch (req.search q) afterDifficulty.

(** [parseInt(offset)] with the default [offset = 0] *)
Definition startIndex (q : req.query) : Js.number :=
  Js.parseInt (default "0" (req.offset q)).

(** [startIndex + parseInt(limit)] with the default [limit = 50] *)
Definition endIndex (q : req.query) : Js.number :=
  Js.add (startIndex q) (Js.parseInt (default "50" (req.limit q))).

(** The handler of [GET /api/terms]. *)
Definition api_terms (q : req.query) : Js.completion TermsBody.t :=
  filtered ← filteredTerms q;
  paginatedTerms ← callSlice filtered (startIndex q) (endIndex q);
  mret {|
    TermsBody.terms := paginatedTerms;
    TermsBody.total := lengthOf filtered;
    TermsBody.hasMore := Js.lt (endIndex q) (Js.Num (Z.of_nat (lengthOf filtered)));
    TermsBody.categories := Js.keys programmingTermsDatabase;
    TermsBody.difficulties := ["beginner"; "intermediate"; "advanced"]
  |}.

(** *** [GET /api/terms/:id] *)

(** The callback of the related-terms filter:
    [t.id !== term.id && (t.tags.some(tag => term.tags.includes(tag)) ||
     term.relatedTerms?.some(related => t.name.includes(related)))] *)
Definition isRelated (term t : Term) : bool :=
  negb (String.eqb (Term.id t) (Term.id term))
  && (existsb (λ tag, Js.array_includes (Term.tags term) tag) (Term.tags t)
      || match Term.relatedTerms term with
         | Some hints => existsb (λ related, Js.includes (Term.name t) related) hints
         | None => false
         end).

(** [allTerms.filter(...).slice(0, 5)] *)
Definition relatedTerms (term : Term) : list Term :=
  Js.slice (filter (λ t, isRelated term t) allTerms) (Js.Num 0) (Js.Num 5).

(** [t => ({ id: t.id, name: t.name, chinese: t.chinese })] *)
Definition relatedRef (t : Term) : json :=
  JObject [ ("id", JString (Term.id t));
            ("name", JString (Term.name t));
            ("chinese", JString (Term.chinese t)) ].

(** The own properties of a term literal, in the order they are written. *)
Definition termObject (term : Term) : Js.object json :=
  [ ("id", JString (Term.id term));
    ("name", JString (Term.name term));
    ("chinese", JString (Term.chinese term));
    ("description", JString (Term.description term));
    ("difficulty", JString (Term.difficulty term));
    ("tags", JArray (JString <$> Term.tags term));
    ("example", JString (Term.example term));
    ("useCases", JArray (JString <$> Term.useCases term)) ]
  ++ match Term.relatedTerms term with
     | Some hints => [ ("relatedTerms", JArray (JString <$> hints)) ]
     | None => []
     end.

(** [allTerms.find(t => t.id === req.params.id)] *)
Definition findTerm (id : string) : option Term :=
  List.find (λ t, String.eqb (Term.id t) id) allTerms.

(** The handler of [GET /api/terms/:id]. *)
Definition api_terms_id (id : string) : reply :=
  match findTerm id with
  | None => Reply 404 (JObject [ ("error", JString "Term not found") ])
  | Some term =>
      Reply 200
        (JObject (Js.set (termObject term) "relatedTerms"
                    (JArray (relatedRef <$> relatedTerms term))))
  end.

(** *** [GET /api/stats] *)

(** [allTerms.filter(t => t.difficulty === d).length] *)
Definition countDifficulty (d : string) : nat :=
  length (filter (λ t, difficultyIs d t) allTerms).

(** The handler of [GET /api/stats]; [now] is [new Date().toISOString()]. *)
Definition api_stats (now : string) : StatsBody.t := {|
  StatsBody.totalTerms := length allTerms;
  StatsBody.categories := length (Js.keys programmingTermsDatabase);
  StatsBody.byDifficulty := {|
    StatsBody.beginner := countDifficulty "beginner";
    StatsBody.intermediate := countDifficulty "intermediate";
    StatsBody.advanced := countDifficulty "advanced"
  |};
  StatsBody.byCategory :=
    fold_left
      (λ acc key, Js.set acc key
                    (length (default [] (Js.getOwn programmingTermsDatabase key))))
      (Js.keys programmingTermsDatabase) [];
  StatsBody.lastUpdated := now
|}.

(** *** [GET /api/random] *)

(** The handler of [GET /api/random], run with the generator in state [g]:
    [shuffled.slice(0, parseInt(count))] with the default [count = 1]. *)
Definition api_random (g : Rng) (count : option string) : list Term :=
  let shuffled := sortRandom g allTerms in
  let randomTerms :=
    Js.slice shuffled (Js.Num 0) (Js.parseInt (default "1" count)) in
  randomTerms.

(** The condition the difficulty step imposes on a term. *)
Definition passesDifficulty (difficulty : option string) (term : Term) : bool :=
  match difficulty with
  | Some d =>
      if Js.truthy d && negb (String.eqb d "all") then difficultyIs d term
      else true
  | None => true
  end.

(** The condition the search step imposes on a term. *)
Definition passesSearch (search : option string) (term : Term) : bool :=
  match search with
  | Some s => if Js.truthy s then searchMatches s term else true
  | None => true
  end.

(** *** Notions of the specification *)

(** [termsOf(categoryName)]: the category's term sequence, or the empty
    sequence when the catalog has no category of that name. *)
Definition termsOf (categoryName : string) : list Term :=
  default [] (Js.getOwn programmingTermsDatabase categoryName).

(** The search criterion as the specification words it: the lower-cased,
    trimmed query is looked for in the name, the localized label, the
    description and the tags. *)
Definition specSearchKeeps (search : string) (term : Term) : bool :=
  let query := toLowerCase (Js.trim search) in
  Js.includes (toLowerCase (Term.name term)) query
  || Js.includes (Term.chinese term) query
  || Js.includes (toLowerCase (Term.description term)) query
  || existsb (λ tag, Js.includes (toLowerCase tag) query) (Term.tags term).

(** The search criterion the handler applies, as a proposition. *)
Definition SearchKeeps (search : string) (term : Term) : Prop :=
  Substring (toLowerCase search) (toLowerCase (Term.name term))
  ∨ Substring search (Term.chinese term)
  ∨ Substring (toLowerCase search) (toLowerCase (Term.description term))
  ∨ ∃ tag, tag ∈ Term.tags term
           ∧ Substring (toLowerCase search) (toLowerCase tag).

(** The two ways a candidate is related to the source term. *)
Definition SharesTag (term t : Term) : Prop :=
  ∃ tag, tag ∈ Term.tags t ∧ tag ∈ Term.tags term.

Definition NameHinted (term t : Term) : Prop :=
  ∃ hints related, Term.relatedTerms term = Some hints
                   ∧ related ∈ hints ∧ Substring related (Term.name t).

Definition Related (term t : Term) : Prop :=
  Term.id t ≠ Term.id term ∧ (SharesTag term t ∨ NameHinted term t).

#[global] Instance recognizedDifficulty_dec (d : string) :
  Decision (recognizedDifficulty d).
Proof. unfold recognizedDifficulty. apply _. Defined.

(** The page length the specification states:
    [min(limit, max(0, total - offset))]. *)
Definition specPageLength (limit offset total : Z) : Z :=
  Z.min limit (Z.max 0 (total - offset)).

(** The difficulty filter as a proposition: a non-empty value other than
    ["all"] must equal the term's difficulty. *)
Definition DifficultyKeeps (difficulty : option string) (term : Term) : Prop :=
  ∀ d, difficulty = Some d → d ≠ "" → d ≠ "all" → Term.difficulty term = d.

(** *** [GET /api/categories] *)

(** [Object.keys(programmingTermsDatabase).map(key => ({ id: key, name: key,
    count: programmingTermsDatabase[key].length,
    displayName: table[key] || key }))] *)
Definition categoriesWith (table : Js.object string) : list CategoryEntry.t :=
  (λ key, {|
     CategoryEntry.id := key;
     CategoryEntry.name := key;
     CategoryEntry.count :=
       length (default [] (Js.getOwn programmingTermsDatabase key));
     CategoryEntry.displayName := displayNameOf table key
   |}) <$> Js.keys programmingTermsDatabase.

(** The handler of [GET /api/categories], and that of the earlier revision. *)
Definition api_categories : list CategoryEntry.t := categoriesWith displayNames.

Definition api_categories_part_000 : list CategoryEntry.t :=
  categoriesWith displayNames_part_000.

(** *** The error middleware *)

(** [res.status(500).json({ error: 'Internal server error',
     message: process.env.NODE_ENV === 'development' ? err.message
                                                    : 'Something went wrong' })] *)
Definition errorHandler (NODE_ENV : option string) (message : string) : reply :=
  Reply 500
    (JObject
       [ ("error", JString "Internal server error");
         ("message",
          JString (match NODE_ENV with
                   | Some env =>
                       if String.eqb env "development" then message
                       else "Something went wrong"
                   | None => "Something went wrong"
                   end)) ]).

(** [GET /api/terms] as served: an exception thrown by the handler is passed
    to the error middleware. *)
Definition get_api_terms (NODE_ENV : option string) (q : req.query) : served :=
  match api_terms q with
  | Js.Normal body => Served body
  | Js.Throw message => Failed (errorHandler NODE_ENV message)
  end.

(** ** Properties *)

(** *** Strings *)

Lemma prefix_append (p s : string) :
  String.prefix p s = true ↔ ∃ post, s = p +:+ post.
Proof.
  revert s. induction p as [|a p IH]; intros s.
  - split; [intros _; by exists s | by destruct s].
  - destruct s as [|b s]; simpl.
    + split; [done | intros [post H]; discriminate H].
    + destruct (ascii_dec a b) as [->|Hab].
      * rewrite IH. split; intros [post H]; exists post.
        -- by rewrite H.
        -- by injection H.
      * split; [done | intros [post H]]. injection H as Hb _. by destruct Hab.
Qed.

Lemma includes_Substring (hay needle : string) :
  Js.includes hay needle = true ↔ Substring needle hay.
Proof.
  split.
  - induction hay as [|c hay IH]; cbn [Js.includes]; rewrite orb_true_iff.
    + intros [H|H]; [|done]. apply prefix_append in H as [post H].
      by exists "", post.
    + intros [H|H].
      * apply prefix_append in H as [post H]. by exists "", post.
      * destruct (IH H) as (pre & post & ->). by exists (String c pre), post.
  - intros (pre & post & ->). induction pre as [|c pre IH].
    + assert (String.prefix needle ("" +:+ needle +:+ post) = true) as H
        by (apply prefix_append; by exists post).
      destruct ("" +:+ needle +:+ post); cbn [Js.includes]; by rewrite H.
    + cbn [String.append Js.includes]. apply orb_true_iff. by right.
Qed.

Lemma includes_empty (hay : string) : Js.includes hay "" = true.
Proof. by destruct hay. Qed.

Lemma truthy_nonempty (s : string) : Js.truthy s = true ↔ s ≠ "".
Proof. by destruct s. Qed.

Lemma eqb_all (s : string) : negb (String.eqb s "all") = true ↔ s ≠ "all".
Proof.
  rewrite negb_true_iff. destruct (String.eqb_spec s "all"); split; congruence.
Qed.

(** *** [slice] *)

Lemma slice_sublist {A : Type} (l : list A) (a b : Js.number) :
  Js.slice l a b `sublist_of` l.
Proof.
  unfold Js.slice. etrans; [apply sublist_take | apply sublist_drop].
Qed.

Lemma slice_nil {A : Type} (a b : Js.number) : Js.slice (@nil A) a b = [].
Proof. unfold Js.slice. by rewrite drop_nil, take_nil. Qed.

Lemma slice_from_0 {A : Type} (l : list A) (n : Z) :
  (0 ≤ n)%Z → Js.slice l (Js.Num 0) (Js.Num n) = take (Z.to_nat n) l.
Proof.
  intros Hn. unfold Js.slice; simpl.
  destruct (Z.ltb_spec n 0) as [?|_]; [lia|].
  replace (Z.to_nat (0 `min` Z.of_nat (length l))) with 0 by lia.
  rewrite drop_0.
  destruct (Z.le_ge_cases n (Z.of_nat (length l))).
  - f_equal. lia.
  - rewrite !take_ge; [done | lia | lia].
Qed.

Lemma slice_0_negative {A : Type} (l : list A) (n : Z) :
  (n < 0)%Z →
  Js.slice l (Js.Num 0) (Js.Num n) = take (length l - Z.to_nat (- n)) l.
Proof.
  intros Hn. unfold Js.slice; simpl.
  destruct (Z.ltb_spec n 0) as [_|?]; [|lia].
  replace (Z.to_nat (0 `min` Z.of_nat (length l))) with 0 by lia.
  rewrite drop_0. f_equal. lia.
Qed.

Lemma length_slice_page {A : Type} (l : list A) (offset limit : Z) :
  (0 ≤ offset)%Z → (0 ≤ limit)%Z →
  Z.of_nat (length (Js.slice l (Js.Num offset) (Js.Num (offset + limit))))
  = Z.min limit (Z.max 0 (Z.of_nat (length l) - offset)).
Proof.
  intros Ho Hl. unfold Js.slice; simpl.
  destruct (Z.ltb_spec offset 0) as [?|_]; [lia|].
  destruct (Z.ltb_spec (offset + limit) 0) as [?|_]; [lia|].
  rewrite length_take, length_drop. lia.
Qed.


(** *** Filters *)

Lemma filter_bool_ext {A : Type} (p q : A → bool) (l : list A) :
  (∀ x, x ∈ l → p x = q x) → filter (λ x, p x) l = filter (λ x, q x) l.
Proof.
  induction l as [|x l IH]; intros H; [done|].
  rewrite !filter_cons, (H x) by left.
  rewrite IH; [done|]. intros y Hy. apply H. by right.
Qed.

Lemma filter_bool_and {A : Type} (p q : A → bool) (l : list A) :
  filter (λ x, q x) (filter (λ x, p x) l) = filter (λ x, p x && q x) l.
Proof.
  induction l as [|x l IH]; [done|].
  rewrite !filter_cons. destruct (p x) eqn:Hp; simpl.
  - rewrite filter_cons, IH. by destruct (q x).
  - by rewrite IH.
Qed.

Lemma filter_bool_true {A : Type} (l : list A) : filter (λ _, true) l = l.
Proof. induction l as [|x l IH]; [done|]. by rewrite filter_cons, IH. Qed.

Lemma filterDifficulty_Array (d : option string) (ws : list Term) :
  filterDifficulty d (Array ws)
  = Js.Normal (Array (filter (λ t, passesDifficulty d t) ws)).
Proof.
  unfold filterDifficulty, passesDifficulty. destruct d as [d|].
  - destruct (Js.truthy d && negb (String.eqb d "all")); simpl;
      [done | by rewrite filter_bool_true].
  - by rewrite filter_bool_true.
Qed.

Lemma filterSearch_Array (s : option string) (ws : list Term) :
  filterSearch s (Array ws)
  = Js.Normal (Array (filter (λ t, passesSearch s t) ws)).
Proof.
  unfold filterSearch, passesSearch. destruct s as [s|].
  - destruct (Js.truthy s); simpl; [done | by rewrite filter_bool_true].
  - by rewrite filter_bool_true.
Qed.

Lemma filteredTerms_Array (q : req.query) (ws : list Term) :
  selectCategory (req.category q) = Array ws →
  filteredTerms q
  = Js.Normal (Array (filter (λ t, passesDifficulty (req.difficulty q) t
                                   && passesSearch (req.search q) t) ws)).
Proof.
  intros Hws. unfold filteredTerms. rewrite Hws, filterDifficulty_Array.
  cbn [mbind Js.completion_bind]. by rewrite filterSearch_Array, filter_bool_and.
Qed.

Lemma api_terms_Array (q : req.query) (ws : list Term) :
  selectCategory (req.category q) = Array ws →
  let kept := filter (λ t, passesDifficulty (req.difficulty q) t
                           && passesSearch (req.search q) t) ws in
  api_terms q = Js.Normal {|
    TermsBody.terms := Js.slice kept (startIndex q) (endIndex q);
    TermsBody.total := length kept;
    TermsBody.hasMore := Js.lt (endIndex q) (Js.Num (Z.of_nat (length kept)));
    TermsBody.categories := Js.keys programmingTermsDatabase;
    TermsBody.difficulties := ["beginner"; "intermediate"; "advanced"]
  |}.
Proof.
  intros Hws kept. unfold api_terms. by rewrite (filteredTerms_Array q ws Hws).
Qed.

Lemma api_terms_NotArray (q : req.query) :
  selectCategory (req.category q) = NotArray →
  ∃ message, api_terms q = Js.Throw message.
Proof.
  intros Hws. unfold api_terms, filteredTerms, filterDifficulty, filterSearch.
  rewrite Hws.
  destruct (req.difficulty q) as [d|];
    [destruct (Js.truthy d && negb (String.eqb d "all"))|];
    destruct (req.search q) as [s|]; try destruct (Js.truthy s);
    simpl; eauto.
Qed.

Lemma selectCategory_named (c : string) :
  c ≠ "" → c ≠ "all" → selectCategory (Some c) = categoryTerms c.
Proof.
  intros H1 H2. unfold selectCategory.
  apply truthy_nonempty in H1. apply eqb_all in H2. by rewrite H1, H2.
Qed.

Lemma categoryTerms_termsOf (c : string) :
  Js.get programmingTermsDatabase c ≠ Js.Inherited →
  categoryTerms c = Array (termsOf c).
Proof.
  unfold categoryTerms, termsOf, Js.get.
  destruct (Js.getOwn programmingTermsDatabase c); [done|].
  by destruct (Js.array_includes Js.ObjectPrototypeKeys c).
Qed.

Lemma passesDifficulty_DifficultyKeeps (d : option string) (t : Term) :
  passesDifficulty d t = true ↔ DifficultyKeeps d t.
Proof.
  unfold passesDifficulty, DifficultyKeeps, difficultyIs.
  destruct d as [d|]; [|by split].
  destruct (Js.truthy d && negb (String.eqb d "all")) eqn:Hc.
  - apply andb_true_iff in Hc as [H1%truthy_nonempty H2%eqb_all].
    rewrite String.eqb_eq. split; [by intros ? ? [= <-]|]. intros H. by apply H.
  - split; [|done]. intros _ d' [= <-] H1%truthy_nonempty H2%eqb_all.
    by rewrite H1, H2 in Hc.
Qed.

Lemma existsb_elem_of {A : Type} (p : A → bool) (l : list A) :
  existsb p l = true ↔ ∃ x, x ∈ l ∧ p x = true.
Proof.
  rewrite existsb_exists. by setoid_rewrite list_elem_of_In.
Qed.

Lemma searchMatches_SearchKeeps (s : string) (t : Term) :
  searchMatches s t = true ↔ SearchKeeps s t.
Proof.
  unfold searchMatches, SearchKeeps.
  rewrite !orb_true_iff, !includes_Substring, existsb_elem_of.
  setoid_rewrite includes_Substring. tauto.
Qed.

(** *** The list handler: working set, filters, pagination *)

(** C1 (amended).  For every query whose category [c] is non-empty, is not
    ["all"] and does not resolve to a property inherited from
    [Object.prototype], the working set is exactly [termsOf c], whatever
    [allTerms] holds, the handler answers normally, and every term of the
    page belongs to [termsOf c]. *)
Theorem category_replaces_working_set (q : req.query) (c : string) :
  req.category q = Some c →
  c ≠ "" → c ≠ "all" →
  Js.get programmingTermsDatabase c ≠ Js.Inherited →
  selectCategory (req.category q) = Array (termsOf c)
  ∧ ∃ body, api_terms q = Js.Normal body
            ∧ ∀ t, t ∈ TermsBody.terms body → t ∈ termsOf c.
Proof.
  intros Hc H1 H2 Hown.
  assert (selectCategory (req.category q) = Array (termsOf c)) as Hws.
  { by rewrite Hc, selectCategory_named, categoryTerms_termsOf. }
  split; [done|]. eexists. split; [by apply api_terms_Array|].
  intros t Ht; simpl in Ht.
  eapply elem_of_sublist in Ht; [|apply slice_sublist].
  by apply list_elem_of_filter in Ht as [_ Ht].
Qed.

(** C2 (amended).  For every query with a non-empty search string [s] whose
    working set is an array, the filtered result keeps exactly the terms of
    the working set, in order, that pass the difficulty filter and for which
    the lower-cased query as given (not trimmed) occurs in the lower-cased
    name, or the query exactly as given occurs in the Chinese label, or the
    lower-cased query occurs in the lower-cased description or in a
    lower-cased tag. *)
Theorem search_keeps_matching_terms (q : req.query) (s : string)
    (ws : list Term) :
  req.search q = Some s → s ≠ "" →
  selectCategory (req.category q) = Array ws →
  ∃ kept, filteredTerms q = Js.Normal (Array kept)
    ∧ kept = filter (λ t, passesDifficulty (req.difficulty q) t
                          && searchMatches s t) ws
    ∧ (kept `sublist_of` ws)
    ∧ ∀ t, t ∈ kept ↔
           t ∈ ws ∧ DifficultyKeeps (req.difficulty q) t ∧ SearchKeeps s t.
Proof.
  intros Hs Hne Hws. eexists. split; [by apply filteredTerms_Array|].
  assert (∀ t, passesSearch (req.search q) t = searchMatches s t) as Hp.
  { intros t. unfold passesSearch. rewrite Hs.
    by apply truthy_nonempty in Hne as ->. }
  split; [|split].
  - apply filter_bool_ext. intros t _. by rewrite Hp.
  - apply sublist_filter.
  - intros t. rewrite list_elem_of_filter, Hp.
    rewrite <-passesDifficulty_DifficultyKeeps, <-searchMatches_SearchKeeps.
    rewrite andb_True, !Is_true_true. tauto.
Qed.

(** C3 (amended).  For every query whose working set is an array and whose
    limit and offset parse to non-negative integers (defaults 50 and 0), the
    page has [min(limit, max(0, total - offset))] terms and
    [hasMore = (offset + limit < total)], where [total] is the number of
    filtered terms before pagination. *)
Theorem pagination_of_nonnegative_window (q : req.query) (ws : list Term)
    (limit offset : Z) :
  selectCategory (req.category q) = Array ws →
  Js.parseInt (default "50" (req.limit q)) = Js.Num limit →
  Js.parseInt (default "0" (req.offset q)) = Js.Num offset →
  (0 ≤ limit)%Z → (0 ≤ offset)%Z →
  ∃ body, api_terms q = Js.Normal body
    ∧ filteredTerms q
      = Js.Normal (Array (filter (λ t, passesDifficulty (req.difficulty q) t
                                       && passesSearch (req.search q) t) ws))
    ∧ TermsBody.total body
      = length (filter (λ t, passesDifficulty (req.difficulty q) t
                             && passesSearch (req.search q) t) ws)
    ∧ Z.of_nat (length (TermsBody.terms body))
      = specPageLength limit offset (Z.of_nat (TermsBody.total body))
    ∧ TermsBody.hasMore body
      = (offset + limit <? Z.of_nat (TermsBody.total body))%Z.
Proof.
  intros Hws Hl Ho Hl0 Ho0. eexists.
  split; [by apply api_terms_Array|]. split; [by apply filteredTerms_Array|].
  simpl. unfold endIndex, startIndex. rewrite Hl, Ho. simpl.
  split; [done|]. split; [|done]. by apply length_slice_page.
Qed.

(** C6 (amended).  The search string still filters inside a category: two
    queries with the same category [c] (non-empty, not ["all"], not an
    inherited property name), difficulty, limit and offset return the same
    response whenever their search strings select the same terms of
    [termsOf c]; what the strings match outside the category has no
    influence. *)
Theorem search_acts_only_within_category (q1 q2 : req.query) (c : string) :
  req.category q1 = Some c → req.category q2 = Some c →
  c ≠ "" → c ≠ "all" →
  Js.get programmingTermsDatabase c ≠ Js.Inherited →
  req.difficulty q1 = req.difficulty q2 →
  req.limit q1 = req.limit q2 → req.offset q1 = req.offset q2 →
  (∀ t, t ∈ termsOf c →
        passesSearch (req.search q1) t = passesSearch (req.search q2) t) →
  api_terms q1 = api_terms q2.
Proof.
  intros Hc1 Hc2 H1 H2 Hown Hd Hl Ho Hs.
  assert (∀ q, req.category q = Some c →
               selectCategory (req.category q) = Array (termsOf c)) as Hws.
  { intros q Hq. by rewrite Hq, selectCategory_named, categoryTerms_termsOf. }
  rewrite (api_terms_Array q1 _ (Hws q1 Hc1)), (api_terms_Array q2 _ (Hws q2 Hc2)).
  unfold endIndex, startIndex. rewrite Hl, Ho, Hd.
  rewrite (filter_bool_ext
             (λ t, passesDifficulty (req.difficulty q2) t
                   && passesSearch (req.search q1) t)
             (λ t, passesDifficulty (req.difficulty q2) t
                   && passesSearch (req.search q2) t)); [done|].
  intros t Ht. by rewrite Hs.
Qed.

(** C7.  For every combination of category, difficulty and search filters
    whose working set is an array, the filtered result is a subsequence of
    the working set (same relative order, nothing added), and so is the
    page cut from it. *)
Theorem filtering_preserves_order (q : req.query) (ws : list Term) :
  selectCategory (req.category q) = Array ws →
  ∃ kept body, filteredTerms q = Js.Normal (Array kept)
    ∧ (kept `sublist_of` ws)
    ∧ api_terms q = Js.Normal body
    ∧ (TermsBody.terms body `sublist_of` kept).
Proof.
  intros Hws. do 2 eexists.
  split; [by apply filteredTerms_Array|]. split; [apply sublist_filter|].
  split; [by apply api_terms_Array|]. apply slice_sublist.
Qed.

(** C9 (the code at the failing inputs).  A category name that the catalog
    does not have but that every object inherits from [Object.prototype]
    does not give an empty working set: the handler throws. *)
Theorem inherited_category_name_throws (q : req.query) (c : string) :
  req.category q = Some c →
  c ∈ Js.ObjectPrototypeKeys →
  Js.getOwn programmingTermsDatabase c = None →
  selectCategory (req.category q) = NotArray
  ∧ ∃ message, api_terms q = Js.Throw message.
Proof.
  intros Hc Hin Hown.
  assert (selectCategory (req.category q) = NotArray) as Hws.
  { rewrite Hc. unfold selectCategory, categoryTerms, Js.get. rewrite Hown.
    unfold Js.ObjectPrototypeKeys in Hin.
    repeat (apply elem_of_cons in Hin as [->|Hin]; [reflexivity|]).
    by apply elem_of_nil in Hin. }
  split; [done | by apply api_terms_NotArray].
Qed.

(** The part of C9 the code does satisfy: a category name that resolves to
    nothing at all gives an empty page and [total = 0]. *)
Lemma unknown_category_is_empty (q : req.query) (c : string) :
  req.category q = Some c → c ≠ "" → c ≠ "all" →
  Js.get programmingTermsDatabase c = Js.Undefined →
  ∃ body, api_terms q = Js.Normal body
          ∧ TermsBody.terms body = [] ∧ TermsBody.total body = 0.
Proof.
  intros Hc H1 H2 Hget.
  assert (selectCategory (req.category q) = Array []) as Hws.
  { rewrite Hc, selectCategory_named by done. unfold categoryTerms.
    by rewrite Hget. }
  eexists. split; [by apply api_terms_Array|]. simpl.
  by rewrite filter_nil, slice_nil.
Qed.

(** A difficulty value that no term of the working set carries leaves
    nothing: the comparison is strict string equality. *)
Lemma unknown_difficulty_is_empty (q : req.query) (d : string)
    (ws : list Term) :
  req.difficulty q = Some d → d ≠ "" → d ≠ "all" →
  selectCategory (req.category q) = Array ws →
  (∀ t, t ∈ ws → Term.difficulty t ≠ d) →
  ∃ body, api_terms q = Js.Normal body
          ∧ TermsBody.terms body = [] ∧ TermsBody.total body = 0.
Proof.
  intros Hd H1 H2 Hws Hno.
  eexists. split; [by apply api_terms_Array|].
  assert (filter (λ t, passesDifficulty (req.difficulty q) t
                       && passesSearch (req.search q) t) ws = []) as ->;
    [|by rewrite slice_nil].
  rewrite (filter_bool_ext _ (λ _, false)).
  - clear. induction ws as [|t ws IH]; [done|]. by rewrite filter_cons.
  - intros t Ht. apply andb_false_iff. left.
    apply not_true_is_false. rewrite passesDifficulty_DifficultyKeeps.
    intros Hk. by apply (Hno t Ht), Hk.
Qed.

(** *** The detail handler *)

Lemma array_includes_elem_of (arr : list string) (x : string) :
  Js.array_includes arr x = true ↔ x ∈ arr.
Proof.
  unfold Js.array_includes. rewrite existsb_elem_of. split.
  - by intros (y & Hy & ->%String.eqb_eq).
  - intros Hx. exists x. by rewrite String.eqb_refl.
Qed.

Lemma isRelated_Related (term t : Term) :
  isRelated term t = true ↔ Related term t.
Proof.
  unfold isRelated, Related, SharesTag, NameHinted.
  rewrite andb_true_iff, orb_true_iff, negb_true_iff, existsb_elem_of.
  setoid_rewrite array_includes_elem_of.
  assert (String.eqb (Term.id t) (Term.id term) = false
          ↔ Term.id t ≠ Term.id term) as ->.
  { destruct (String.eqb_spec (Term.id t) (Term.id term)); split; congruence. }
  destruct (Term.relatedTerms term) as [hints|].
  - rewrite existsb_elem_of. setoid_rewrite includes_Substring.
    split; intros [Hid [Htag|Hname]]; (split; [done|]); eauto.
    + right. destruct Hname as (related & ? & ?). by exists hints, related.
    + right. destruct Hname as (hints' & related & [= <-] & ? & ?). eauto.
  - split; intros [Hid [Htag|Hname]]; (split; [done|]); eauto; try done.
    by destruct Hname as (? & ? & ? & _).
Qed.

Lemma take_filter_firstMatching {A : Type} (p : A → bool) (n : nat)
    (l : list A) :
  take n (filter (λ x, p x) l) = firstMatching p n l.
Proof.
  revert n. induction l as [|x l IH]; intros n; [by destruct n|].
  rewrite filter_cons. destruct n as [|n]; [done|]. simpl.
  destruct (p x); simpl; by rewrite IH.
Qed.

Lemma relatedTerms_firstMatching (term : Term) :
  relatedTerms term = firstMatching (isRelated term) 5 allTerms.
Proof.
  unfold relatedTerms. rewrite slice_from_0 by lia.
  apply take_filter_firstMatching.
Qed.

Lemma findTerm_Some (id : string) (term : Term) :
  findTerm id = Some term → term ∈ allTerms ∧ Term.id term = id.
Proof.
  intros [Hin Hid]%find_some. split; [by apply list_elem_of_In|].
  by apply String.eqb_eq.
Qed.

Lemma findTerm_present (id : string) :
  id ∈ Term.id <$> allTerms → ∃ term, findTerm id = Some term.
Proof.
  intros (t & -> & Ht)%list_elem_of_fmap. unfold findTerm.
  destruct (find _ allTerms) as [term|] eqn:Hfind; [by exists term|].
  apply list_elem_of_In in Ht.
  pose proof (find_none _ _ Hfind t Ht) as Hno. simpl in Hno.
  by rewrite String.eqb_refl in Hno.
Qed.

Lemma getOwn_set_eq {A : Type} (o : Js.object A) (k : string) (v : A) :
  Js.getOwn (Js.set o k v) k = Some v.
Proof.
  induction o as [|[k' v'] o IH]; cbn [Js.getOwn Js.set];
    [by rewrite String.eqb_refl|].
  destruct (String.eqb k' k) eqn:Hk; cbn [Js.getOwn Js.set].
  - by rewrite Hk.
  - by rewrite Hk.
Qed.

Lemma getOwn_set_ne {A : Type} (o : Js.object A) (k k' : string) (v : A) :
  k' ≠ k → Js.getOwn (Js.set o k v) k' = Js.getOwn o k'.
Proof.
  intros Hne. apply not_eq_sym, String.eqb_neq in Hne.
  induction o as [|[k0 v0] o IH]; cbn [Js.getOwn Js.set].
  - by rewrite Hne.
  - destruct (String.eqb_spec k0 k) as [->|Hk]; cbn [Js.getOwn Js.set].
    + by rewrite Hne.
    + by rewrite IH.
Qed.

Lemma keys_set_present {A : Type} (o : Js.object A) (k : string) (v : A) :
  k ∈ Js.keys o → Js.keys (Js.set o k v) = Js.keys o.
Proof.
  unfold Js.keys. induction o as [|[k' v'] o IH]; cbn [Js.set].
  - by intros ?%elem_of_nil.
  - destruct (String.eqb_spec k' k) as [->|Hk]; [done|].
    rewrite !fmap_cons. intros [?|Hin]%elem_of_cons; [by subst|].
    by rewrite IH.
Qed.

Lemma unique_id_same_term (l : list Term) (x y : Term) :
  NoDup (Term.id <$> l) → x ∈ l → y ∈ l → Term.id x = Term.id y → x = y.
Proof.
  induction l as [|a l IH]; [by intros _ ?%elem_of_nil|].
  rewrite fmap_cons, NoDup_cons. intros [Ha Hnd] Hx Hy Hid.
  apply elem_of_cons in Hx as [->|Hx]; apply elem_of_cons in Hy as [->|Hy].
  - done.
  - destruct Ha. rewrite Hid. by apply list_elem_of_fmap_2.
  - destruct Ha. rewrite <-Hid. by apply list_elem_of_fmap_2.
  - by apply IH.
Qed.

Lemma find_first {A : Type} (f : A → bool) (l : list A) (x : A) :
  List.find f l = Some x →
  ∃ pre post, l = pre ++ x :: post ∧ f x = true ∧ ∀ y, y ∈ pre → f y = false.
Proof.
  induction l as [|a l IH]; [done|]. simpl. destruct (f a) eqn:Ha.
  - intros [= ->]. exists [], l. split; [done|]. split; [done|].
    by intros y ?%elem_of_nil.
  - intros (pre & post & -> & Hx & Hpre)%IH. exists (a :: pre), post.
    split; [done|]. split; [done|].
    intros y [->|Hy]%elem_of_cons; [done | by apply Hpre].
Qed.

Lemma take_filter_prefix {A : Type} (p : A → bool) (n : nat) (l : list A) :
  ∃ scanned rest,
    l = scanned ++ rest
    ∧ take n (filter (λ x, p x) l) = filter (λ x, p x) scanned
    ∧ (rest = [] ∨ length (take n (filter (λ x, p x) l)) = n).
Proof.
  revert n. induction l as [|x l IH]; intros n.
  - exists [], []. rewrite filter_nil, take_nil.
    split; [done|]. split; [done|]. by left.
  - destruct n as [|n].
    + exists [], (x :: l). split; [done|]. split; [done|]. by right.
    + rewrite filter_cons. destruct (p x) eqn:Hp; simpl.
      * destruct (IH n) as (scanned & rest & -> & Htake & Hend).
        exists (x :: scanned), rest. split; [done|].
        rewrite filter_cons, Hp. simpl. rewrite Htake. split; [done|].
        destruct Hend as [->|Hlen]; [by left|right]. by rewrite <-Htake, Hlen.
      * destruct (IH (S n)) as (scanned & rest & -> & Htake & Hend).
        exists (x :: scanned), rest. split; [done|].
        rewrite filter_cons, Hp. simpl. by split.
Qed.

Lemma findTerm_first (id : string) :
  id ∈ Term.id <$> allTerms →
  ∃ pre term post,
    findTerm id = Some term
    ∧ allTerms = pre ++ term :: post
    ∧ Term.id term = id
    ∧ ∀ t, t ∈ pre → Term.id t ≠ id.
Proof.
  intros [term Hfind]%findTerm_present.
  pose proof Hfind as (pre & post & Hall & Hid%String.eqb_eq & Hpre)%find_first.
  exists pre, term, post. repeat split; try done.
  intros t Ht Heq. specialize (Hpre t Ht). simpl in Hpre.
  by rewrite Heq, String.eqb_refl in Hpre.
Qed.

(** C4.  For every term id present in [allTerms], the detail handler
    answers with the first term of [allTerms] that carries the id and, under
    [relatedTerms], the [{id, name, chinese}] projections of exactly the
    first five (or fewer) terms of [allTerms], in [allTerms] order, that are
    distinct from the source term (carry another id, which is the same as
    being another term when no other term has the source's id) and share a
    tag with it or have a name containing one of its [relatedTerms] hints;
    the source term is never among them and there are never more than
    five. *)
Theorem related_terms_are_first_five (id : string) :
  id ∈ Term.id <$> allTerms →
  ∃ pre term post obj,
    allTerms = pre ++ term :: post
    ∧ Term.id term = id
    ∧ (∀ t, t ∈ pre → Term.id t ≠ id)
    ∧ api_terms_id id = Reply 200 (JObject obj)
    ∧ Js.getOwn obj "id" = Some (JString id)
    ∧ (∃ related scanned rest,
         Js.getOwn obj "relatedTerms"
         = Some (JArray ((λ t, JObject [ ("id", JString (Term.id t));
                                  ("name", JString (Term.name t));
                                  ("chinese", JString (Term.chinese t)) ])
                         <$> related))
         ∧ related = firstMatching (isRelated term) 5 (allTerms)
         ∧ allTerms = scanned ++ rest
         ∧ related = filter (λ t, isRelated term t) scanned
         ∧ (rest = [] ∨ length related = 5)
         ∧ (length related ≤ 5)%nat
         ∧ (related `sublist_of` allTerms)
         ∧ (term ∉ related)
         ∧ (∀ t, t ∈ related → t ∈ allTerms ∧ Related term t))
    ∧ (∀ t, isRelated term t = true ↔ Related term t)
    ∧ ((∀ t, t ∈ allTerms → Term.id t = id → t = term) →
       ∀ t, t ∈ allTerms → Term.id t ≠ Term.id term ↔ t ≠ term)
    ∧ (NoDup (Term.id <$> allTerms) →
       ∀ t, t ∈ allTerms → Term.id t ≠ Term.id term ↔ t ≠ term).
Proof.
  intros (pre & term & post & Hfind & Hall & Hid & Hpre)%findTerm_first.
  exists pre, term, post. eexists.
  split; [done|]. split; [done|]. split; [done|].
  split; [unfold api_terms_id; by rewrite Hfind|].
  assert (term ∈ allTerms) as Hterm.
  { rewrite Hall. apply elem_of_app. right. left. }
  assert (firstMatching (isRelated term) 5 allTerms
          = take 5 (filter (λ t, isRelated term t) allTerms)) as Hrel.
  { by rewrite take_filter_firstMatching. }
  assert (∀ t, t ∈ firstMatching (isRelated term) 5 allTerms
               → t ∈ allTerms ∧ Related term t) as Hmem.
  { intros t Ht. rewrite Hrel in Ht.
    eapply elem_of_sublist in Ht; [|apply sublist_take].
    apply list_elem_of_filter in Ht as [Ht ?]. split; [done|].
    by apply isRelated_Related, Is_true_true. }
  split.
  { rewrite getOwn_set_ne by discriminate. by rewrite <-Hid. }
  split.
  { destruct (take_filter_prefix (isRelated term) 5 allTerms)
      as (scanned & rest & Hsplit & Htake & Hend).
    exists (firstMatching (isRelated term) 5 allTerms), scanned, rest.
    split; [by rewrite getOwn_set_eq, relatedTerms_firstMatching|].
    split; [done|]. split; [done|].
    split; [by rewrite Hrel, Htake|].
    split; [by rewrite Hrel|].
    split; [rewrite Hrel, length_take; lia|].
    split; [rewrite Hrel; etrans; [apply sublist_take | apply sublist_filter]|].
    split; [|done]. intros Hin. by destruct (Hmem term Hin) as [_ [? _]]. }
  split; [apply isRelated_Related|].
  split.
  { intros Huniq t Ht. split; [by intros Hne ->|].
    intros Hne Heq. apply Hne, Huniq; [done|]. by rewrite Heq. }
  intros Hnd t Ht. split; [by intros Hne ->|].
  intros Hne Heq. apply Hne. by apply (unique_id_same_term allTerms).
Qed.

(** C10.  For every term id found in [allTerms], the detail response is the
    record of the first term carrying the id with [relatedTerms]
    overwritten: that property holds the [{id, name, chinese}] objects
    projected from the matched related terms, none of the original hint
    strings, and every other property reads as in the source term, under
    the same nine keys in the same order. *)
Theorem detail_overwrites_only_relatedTerms (id : string) :
  id ∈ Term.id <$> allTerms →
  ∃ pre term post obj,
    allTerms = pre ++ term :: post
    ∧ Term.id term = id
    ∧ (∀ t, t ∈ pre → Term.id t ≠ id)
    ∧ api_terms_id id = Reply 200 (JObject obj)
    ∧ Js.getOwn obj "relatedTerms"
      = Some (JArray ((λ t, JObject [ ("id", JString (Term.id t));
                                  ("name", JString (Term.name t));
                                  ("chinese", JString (Term.chinese t)) ])
                      <$> firstMatching (isRelated term) 5 (allTerms)))
    ∧ (∀ t, isRelated term t = true ↔ Related term t)
    ∧ (∀ hint : string,
         JString hint
         ∉ (λ t, JObject [ ("id", JString (Term.id t));
                                  ("name", JString (Term.name t));
                                  ("chinese", JString (Term.chinese t)) ])
           <$> firstMatching (isRelated term) 5 (allTerms))
    ∧ (∀ hints, Term.relatedTerms term = Some hints → hints ≠ [] →
                Js.getOwn obj "relatedTerms"
                ≠ Some (JArray (JString <$> hints)))
    ∧ Js.keys obj
      = [ "id"; "name"; "chinese"; "description"; "difficulty"; "tags";
          "example"; "useCases"; "relatedTerms" ]
    ∧ Js.getOwn obj "id" = Some (JString (Term.id term))
    ∧ Js.getOwn obj "name" = Some (JString (Term.name term))
    ∧ Js.getOwn obj "chinese" = Some (JString (Term.chinese term))
    ∧ Js.getOwn obj "description" = Some (JString (Term.description term))
    ∧ Js.getOwn obj "difficulty" = Some (JString (Term.difficulty term))
    ∧ Js.getOwn obj "tags" = Some (JArray (JString <$> Term.tags term))
    ∧ Js.getOwn obj "example" = Some (JString (Term.example term))
    ∧ Js.getOwn obj "useCases" = Some (JArray (JString <$> Term.useCases term))
    ∧ (∀ k, k ≠ "relatedTerms" →
            Js.getOwn obj k = Js.getOwn (termObject term) k)
    ∧ (∀ hints, Term.relatedTerms term = Some hints →
                Js.keys obj = Js.keys (termObject term)).
Proof.
  intros (pre & term & post & Hfind & Hall & Hid & Hpre)%findTerm_first.
  exists pre, term, post. eexists.
  split; [done|]. split; [done|]. split; [done|].
  split; [unfold api_terms_id; by rewrite Hfind|].
  assert (Js.getOwn
            (Js.set (termObject term) "relatedTerms"
               (JArray (relatedRef <$> relatedTerms term))) "relatedTerms"
          = Some (JArray ((λ t, JObject [ ("id", JString (Term.id t));
                                          ("name", JString (Term.name t));
                                          ("chinese", JString (Term.chinese t)) ])
                          <$> firstMatching (isRelated term) 5 allTerms)))
    as Hget.
  { by rewrite getOwn_set_eq, relatedTerms_firstMatching. }
  split; [done|]. split; [apply isRelated_Related|].
  split; [by intros hint (t & ? & _)%list_elem_of_fmap|].
  split.
  { intros hints Hh Hne. rewrite Hget. intros [= Heq].
    destruct hints as [|hint hints]; [done|].
    destruct (firstMatching (isRelated term) 5 allTerms); discriminate Heq. }
  split.
  { unfold termObject. by destruct (Term.relatedTerms term). }
  do 8 (split; [by rewrite getOwn_set_ne by discriminate|]).
  split; [intros k Hk; by apply getOwn_set_ne|].
  intros hints Hh. apply keys_set_present. unfold termObject, Js.keys.
  rewrite Hh, fmap_app. apply elem_of_app. right. simpl. left.
Qed.

(** *** Statistics *)

Lemma difficultyIs_eq (d : string) (t : Term) :
  difficultyIs d t ↔ Term.difficulty t = d.
Proof. unfold difficultyIs. by rewrite Is_true_true, String.eqb_eq. Qed.

Lemma difficulty_buckets (l : list Term) :
  length (filter (λ t, difficultyIs "beginner" t) l)
  + length (filter (λ t, difficultyIs "intermediate" t) l)
  + length (filter (λ t, difficultyIs "advanced" t) l)
  = length (filter (λ t, recognizedDifficulty (Term.difficulty t)) l).
Proof.
  induction l as [|t l IH]; [done|]. rewrite !filter_cons.
  repeat case_decide; simpl;
    repeat match goal with
           | H : context [Is_true (difficultyIs _ _)] |- _ =>
               rewrite difficultyIs_eq in H
           end;
    unfold recognizedDifficulty in *; try lia; exfalso;
    intuition congruence.
Qed.

Lemma length_filter_all {A : Type} (P : A → Prop) `{!∀ x, Decision (P x)}
    (l : list A) :
  length (filter P l) = length l ↔ Forall P l.
Proof.
  induction l as [|x l IH]; [by split|].
  rewrite filter_cons, Forall_cons. pose proof (length_filter P l).
  destruct (decide (P x)); simpl.
  - rewrite <-IH. split; [intros [= ?]; by split | intros [_ ->]; done].
  - split; [lia | tauto].
Qed.

(** C8.  In every [stats] result the three difficulty counts add up to the
    number of terms with a recognized difficulty: such a term is counted in
    exactly one bucket and any other term in none.  Hence the sum is at most
    [totalTerms], with equality exactly when every term of [allTerms] has a
    recognized difficulty. *)
Theorem difficulty_counts_bounded (now : string) :
  let s := api_stats now in
  let sum := StatsBody.beginner (StatsBody.byDifficulty s)
             + StatsBody.intermediate (StatsBody.byDifficulty s)
             + StatsBody.advanced (StatsBody.byDifficulty s) in
  StatsBody.totalTerms s = length allTerms
  ∧ sum = length (filter (λ t, recognizedDifficulty (Term.difficulty t)) allTerms)
  ∧ (sum ≤ StatsBody.totalTerms s)%nat
  ∧ (sum = StatsBody.totalTerms s
     ↔ Forall (λ t, recognizedDifficulty (Term.difficulty t)) allTerms).
Proof.
  simpl. unfold countDifficulty. rewrite difficulty_buckets.
  split; [done|]. split; [done|]. split; [apply length_filter|].
  apply length_filter_all.
Qed.

(** *** Random sampling *)

(** C5 (amended).  When [count] parses to the integer [n] (default 1), the
    sampler returns nothing for [n = 0], [min(n, totalTerms)] terms for
    [n > 0], and the whole shuffled catalog, a permutation of [allTerms],
    for [n ≥ totalTerms]; for [n < 0] it returns the shuffled catalog
    without its last [-n] entries.  The result is always a subsequence of
    the shuffled catalog, so it repeats no id when the catalog itself
    repeats none. *)
Theorem random_sample_contract (g : Rng) (count : option string) (n : Z) :
  Js.parseInt (default "1" count) = Js.Num n →
  let r := api_random g count in
  (n = 0%Z → r = [])
  ∧ ((0 < n)%Z → length r = Nat.min (Z.to_nat n) (length allTerms))
  ∧ ((Z.of_nat (length allTerms) ≤ n)%Z →
     r = sortRandom g allTerms ∧ r ≡ₚ allTerms)
  ∧ ((n < 0)%Z →
     r = take (length allTerms - Z.to_nat (- n)) (sortRandom g allTerms))
  ∧ (r `sublist_of` sortRandom g allTerms)
  ∧ (NoDup (Term.id <$> allTerms) → NoDup (Term.id <$> r)).
Proof.
  intros Hn r. subst r. unfold api_random. rewrite Hn.
  pose proof (sortRandom_Permutation g allTerms) as Hperm.
  pose proof (Permutation_length Hperm) as Hlen.
  split; [intros H; by rewrite slice_from_0, H by lia|].
  split; [intros H; rewrite slice_from_0, length_take by lia; lia|].
  split.
  { intros H. rewrite slice_from_0, take_ge by lia. done. }
  split; [intros H; rewrite slice_0_negative by lia; by rewrite Hlen|].
  split; [apply slice_sublist|].
  intros Hnd. apply (sublist_NoDup _ (Term.id <$> sortRandom g allTerms)).
  - by rewrite Hperm.
  - apply fmap_sublist, slice_sublist.
Qed.

(** *** The list handler: failures, ignored parameters, windows *)

Lemma inactive_guard (o : option string) :
  inactive o ↔
  match o with
  | Some s => Js.truthy s && negb (String.eqb s "all") = false
  | None => True
  end.
Proof.
  unfold inactive. destruct o as [s|]; [|by split; [|left]].
  rewrite andb_false_iff, negb_false_iff, String.eqb_eq. split.
  - intros [?|[[= ->]|[= ->]]]; [done|by left|by right].
  - intros [H|Hs]; [|subst s; by right; right].
    destruct s; [by right; left|done].
Qed.

Lemma selectCategory_inactive (c : option string) :
  inactive c → selectCategory c = Array allTerms.
Proof.
  intros H%inactive_guard. unfold selectCategory.
  destruct c as [s|]; [by rewrite H|done].
Qed.

Lemma filterDifficulty_inactive (d : option string) (v : value) :
  inactive d → filterDifficulty d v = Js.Normal v.
Proof.
  intros H%inactive_guard. unfold filterDifficulty.
  destruct d as [s|]; [by rewrite H|done].
Qed.

Lemma passesDifficulty_inactive (d : option string) (t : Term) :
  inactive d → passesDifficulty d t = true.
Proof.
  intros H%inactive_guard. unfold passesDifficulty.
  destruct d as [s|]; [by rewrite H|done].
Qed.

Lemma filterSearch_falsy (s : option string) (v : value) :
  Js.truthy_opt s = false → filterSearch s v = Js.Normal v.
Proof. unfold filterSearch. destruct s as [s|]; simpl; [by intros ->|done]. Qed.

Lemma passesSearch_falsy (s : option string) (t : Term) :
  Js.truthy_opt s = false → passesSearch s t = true.
Proof. unfold passesSearch. destruct s as [s|]; simpl; [by intros ->|done]. Qed.

Lemma selectCategory_NotArray (c : option string) :
  selectCategory c = NotArray ↔
  ∃ s, c = Some s ∧ s ≠ "" ∧ s ≠ "all"
       ∧ Js.get programmingTermsDatabase s = Js.Inherited.
Proof.
  split.
  - unfold selectCategory. destruct c as [s|]; [|done].
    destruct (Js.truthy s && negb (String.eqb s "all")) eqn:Hg; [|done].
    apply andb_true_iff in Hg as [H1%truthy_nonempty H2%eqb_all].
    unfold categoryTerms. intros H. exists s. repeat split; try done.
    by destruct (Js.get programmingTermsDatabase s).
  - intros (s & -> & H1 & H2 & Hget).
    rewrite selectCategory_named by done. unfold categoryTerms. by rewrite Hget.
Qed.

Lemma selectCategory_cases (c : option string) :
  selectCategory c = NotArray ∨ ∃ ws, selectCategory c = Array ws.
Proof. destruct (selectCategory c) as [ws|]; [right; by exists ws | by left]. Qed.

(** X1.  For a request whose query parameters are each a single string or
    absent, [GET /api/terms] fails exactly when the category is a non-empty
    string other than ["all"] that resolves to a property inherited from
    [Object.prototype]; the reply is then the 500 of the error middleware,
    whose body outside development mode is the same fixed text for every
    failure. *)
Theorem list_fails_exactly_on_inherited_category (NODE_ENV : option string)
    (q : req.query) :
  ((∃ r, get_api_terms NODE_ENV q = Failed r) ↔
   ∃ c, req.category q = Some c ∧ c ≠ "" ∧ c ≠ "all"
        ∧ Js.get programmingTermsDatabase c = Js.Inherited)
  ∧ (∀ r, get_api_terms NODE_ENV q = Failed r →
          status r = 500%Z
          ∧ (NODE_ENV ≠ Some "development" →
             r = Reply 500
                   (JObject [ ("error", JString "Internal server error");
                              ("message", JString "Something went wrong") ]))).
Proof.
  split.
  - rewrite <-selectCategory_NotArray. unfold get_api_terms. split.
    + intros [r Hr]. destruct (selectCategory_cases (req.category q))
        as [H|[ws H]]; [done|].
      by rewrite (api_terms_Array q ws H) in Hr.
    + intros [m ->]%api_terms_NotArray. eauto.
  - unfold get_api_terms. intros r Hr.
    destruct (api_terms q) as [body|m]; [done|]. injection Hr as <-.
    split; [done|]. intros Henv. unfold errorHandler.
    destruct NODE_ENV as [env|]; [|done].
    destruct (String.eqb_spec env "development") as [->|]; done.
Qed.

(** X2.  Parameters the handler ignores: two requests get the same response
    when each of category and difficulty is either equal in both or absent,
    empty or ["all"] in both, the search string is either equal in both or
    absent or empty in both, and limit and offset are equal. *)
Theorem inactive_parameters_are_ignored (q1 q2 : req.query) :
  req.category q1 = req.category q2
  ∨ inactive (req.category q1) ∧ inactive (req.category q2) →
  req.difficulty q1 = req.difficulty q2
  ∨ inactive (req.difficulty q1) ∧ inactive (req.difficulty q2) →
  req.search q1 = req.search q2
  ∨ Js.truthy_opt (req.search q1) = false
    ∧ Js.truthy_opt (req.search q2) = false →
  req.limit q1 = req.limit q2 → req.offset q1 = req.offset q2 →
  api_terms q1 = api_terms q2.
Proof.
  intros Hc Hd Hs Hl Ho.
  assert (selectCategory (req.category q1) = selectCategory (req.category q2))
    as Hsel.
  { destruct Hc as [->|[H1 H2]]; [done|].
    by rewrite !selectCategory_inactive. }
  assert (∀ v, filterDifficulty (req.difficulty q1) v
               = filterDifficulty (req.difficulty q2) v) as Hfd.
  { intros v. destruct Hd as [->|[H1 H2]]; [done|].
    by rewrite !filterDifficulty_inactive. }
  assert (∀ v, filterSearch (req.search q1) v = filterSearch (req.search q2) v)
    as Hfs.
  { intros v. destruct Hs as [->|[H1 H2]]; [done|].
    by rewrite !filterSearch_falsy. }
  unfold api_terms, filteredTerms, endIndex, startIndex.
  rewrite Hsel, Hfd, Hl, Ho.
  destruct (filterDifficulty (req.difficulty q2) _) as [v|m]; [|done].
  cbn [mbind Js.completion_bind]. by rewrite Hfs.
Qed.

Lemma slice_end_NaN {A : Type} (l : list A) (a : Js.number) :
  Js.slice l a Js.NaN = [].
Proof.
  unfold Js.slice. cbn [Js.ToIntegerOrInfinity].
  change (0 <? 0)%Z with false. cbv iota.
  match goal with |- take ?n _ = _ => replace n with 0; [done|] end.
  destruct (Z.ltb_spec (Js.ToIntegerOrInfinity a) 0); lia.
Qed.

(** X3.  A limit or an offset that [parseInt] cannot read (it yields [NaN])
    never fails the request: the page is empty and [hasMore] is false, while
    [total] still counts the filtered terms. *)
Theorem unparseable_window_gives_empty_page (q : req.query) (ws : list Term) :
  selectCategory (req.category q) = Array ws →
  Js.parseInt (default "0" (req.offset q)) = Js.NaN
  ∨ Js.parseInt (default "50" (req.limit q)) = Js.NaN →
  ∃ body, api_terms q = Js.Normal body
    ∧ TermsBody.terms body = []
    ∧ TermsBody.hasMore body = false
    ∧ TermsBody.total body
      = length (filter (λ t, passesDifficulty (req.difficulty q) t
                             && passesSearch (req.search q) t) ws).
Proof.
  intros Hws Hnan. eexists. split; [by apply api_terms_Array|]. simpl.
  assert (endIndex q = Js.NaN) as ->.
  { unfold endIndex, startIndex. destruct Hnan as [->| ->]; [done|].
    by destruct (Js.parseInt (default "0" (req.offset q))). }
  by rewrite slice_end_NaN.
Qed.

Lemma slice_window {A : Type} (l : list A) (a n : Z) :
  (0 ≤ a)%Z → (0 ≤ n)%Z →
  Js.slice l (Js.Num a) (Js.Num (a + n))
  = take (Z.to_nat n) (drop (Z.to_nat a) l).
Proof.
  intros Ha Hn. unfold Js.slice. cbn [Js.ToIntegerOrInfinity].
  destruct (Z.ltb_spec a 0) as [?|_]; [lia|].
  destruct (Z.ltb_spec (a + n) 0) as [?|_]; [lia|].
  destruct (Z.le_gt_cases a (Z.of_nat (length l))) as [Hle|Hgt].
  - replace (Z.to_nat (a `min` Z.of_nat (length l))) with (Z.to_nat a) by lia.
    destruct (Z.le_gt_cases (a + n) (Z.of_nat (length l))).
    + f_equal. lia.
    + rewrite !take_ge; [done| |]; rewrite length_drop; lia.
  - rewrite !drop_ge by lia. by rewrite !take_nil.
Qed.

(** X4.  Consecutive windows tile the filtered result: for non-negative
    integers, the page at offset [o] with limit [l1] followed by the page at
    offset [o + l1] with limit [l2] is the page at offset [o] with limit
    [l1 + l2]; all three report the same total. *)
Theorem consecutive_pages_concatenate (q : req.query) (ws : list Term)
    (so1 so2 sl1 sl2 sl12 : string) (o l1 l2 : Z) :
  selectCategory (req.category q) = Array ws →
  Js.parseInt so1 = Js.Num o → Js.parseInt so2 = Js.Num (o + l1) →
  Js.parseInt sl1 = Js.Num l1 → Js.parseInt sl2 = Js.Num l2 →
  Js.parseInt sl12 = Js.Num (l1 + l2) →
  (0 ≤ o)%Z → (0 ≤ l1)%Z → (0 ≤ l2)%Z →
  ∃ b1 b2 b12,
    api_terms (withWindow q (Some sl1) (Some so1)) = Js.Normal b1
    ∧ api_terms (withWindow q (Some sl2) (Some so2)) = Js.Normal b2
    ∧ api_terms (withWindow q (Some sl12) (Some so1)) = Js.Normal b12
    ∧ TermsBody.terms b1 ++ TermsBody.terms b2 = TermsBody.terms b12
    ∧ TermsBody.total b1 = TermsBody.total b12
    ∧ TermsBody.total b2 = TermsBody.total b12.
Proof.
  intros Hws Ho1 Ho2 Hl1 Hl2 Hl12 Ho Hn1 Hn2. do 3 eexists.
  split; [by apply (api_terms_Array (withWindow q _ _) ws)|].
  split; [by apply (api_terms_Array (withWindow q _ _) ws)|].
  split; [by apply (api_terms_Array (withWindow q _ _) ws)|].
  split; [|done]. simpl. unfold endIndex, startIndex. simpl.
  rewrite Ho1, Ho2, Hl1, Hl2, Hl12. simpl.
  rewrite !slice_window by lia.
  replace (Z.to_nat (l1 + l2)) with (Z.to_nat l1 + Z.to_nat l2) by lia.
  replace (Z.to_nat (o + l1)) with (Z.to_nat o + Z.to_nat l1) by lia.
  rewrite <-drop_drop. apply take_take_drop.
Qed.

(** X5.  What [hasMore] tells, for a non-negative limit and offset: when it
    is true the page holds exactly [limit] terms and the filtered result
    goes on after it; when it is false the page is everything from the
    offset to the end of the filtered result. *)
Theorem hasMore_meaning (q : req.query) (ws : list Term) (limit offset : Z) :
  selectCategory (req.category q) = Array ws →
  Js.parseInt (default "50" (req.limit q)) = Js.Num limit →
  Js.parseInt (default "0" (req.offset q)) = Js.Num offset →
  (0 ≤ limit)%Z → (0 ≤ offset)%Z →
  let kept := filter (λ t, passesDifficulty (req.difficulty q) t
                           && passesSearch (req.search q) t) ws in
  ∃ body, api_terms q = Js.Normal body
    ∧ (TermsBody.hasMore body = true →
       Z.of_nat (length (TermsBody.terms body)) = limit
       ∧ drop (Z.to_nat (offset + limit)) kept ≠ [])
    ∧ (TermsBody.hasMore body = false →
       TermsBody.terms body = drop (Z.to_nat offset) kept
       ∧ drop (Z.to_nat (offset + limit)) kept = []).
Proof.
  intros Hws Hl Ho Hl0 Ho0 kept. eexists.
  split; [by apply api_terms_Array|]. simpl. fold kept.
  unfold endIndex, startIndex. rewrite Hl, Ho. simpl.
  rewrite slice_window by done. split.
  - intros H%Z.ltb_lt. split; [rewrite !length_take, length_drop; lia|].
    intros Hnil%(f_equal length). rewrite length_drop in Hnil. simpl in Hnil.
    lia.
  - intros H%Z.ltb_ge. split; [|apply drop_ge; lia].
    apply take_ge. rewrite length_drop. lia.
Qed.

Lemma filter_bool_weaken {A : Type} (p p' : A → bool) (l : list A) :
  (∀ x, p x = true → p' x = true) →
  filter (λ x, p x) l `sublist_of` filter (λ x, p' x) l.
Proof.
  intros H. induction l as [|x l IH]; [done|]. rewrite !filter_cons.
  destruct (p x) eqn:Hp; simpl.
  - rewrite (H x Hp). simpl. by constructor.
  - destruct (p' x); simpl; [by constructor|done].
Qed.

(** X6.  Dropping a filter never loses results: if a second request has the
    same category and, for each of difficulty and search, either the same
    value or none in effect, then the filtered result of the first is a
    subsequence of that of the second, and its total is not larger. *)
Theorem dropping_filters_keeps_results (q q' : req.query) (ws : list Term) :
  selectCategory (req.category q) = Array ws →
  req.category q' = req.category q →
  req.difficulty q' = req.difficulty q ∨ inactive (req.difficulty q') →
  req.search q' = req.search q ∨ Js.truthy_opt (req.search q') = false →
  ∃ kept kept' body body',
    filteredTerms q = Js.Normal (Array kept)
    ∧ filteredTerms q' = Js.Normal (Array kept')
    ∧ (kept `sublist_of` kept')
    ∧ api_terms q = Js.Normal body ∧ api_terms q' = Js.Normal body'
    ∧ (TermsBody.total body ≤ TermsBody.total body')%nat.
Proof.
  intros Hws Hc Hd Hs.
  assert (selectCategory (req.category q') = Array ws) as Hws' by by rewrite Hc.
  assert (filter (λ t, passesDifficulty (req.difficulty q) t
                       && passesSearch (req.search q) t) ws
          `sublist_of`
          filter (λ t, passesDifficulty (req.difficulty q') t
                       && passesSearch (req.search q') t) ws) as Hsub.
  { apply filter_bool_weaken. intros t [H1 H2]%andb_true_iff.
    apply andb_true_iff. split.
    - destruct Hd as [->|Hd]; [done | by apply passesDifficulty_inactive].
    - destruct Hs as [->|Hs]; [done | by apply passesSearch_falsy]. }
  do 4 eexists. split; [by apply filteredTerms_Array|].
  split; [by apply filteredTerms_Array|]. split; [done|].
  split; [by apply api_terms_Array|]. split; [by apply api_terms_Array|].
  simpl. by apply sublist_length.
Qed.

(** X16.  With a difficulty in effect, every term of the page carries
    exactly that difficulty string (and comes from the working set). *)
Theorem page_terms_carry_the_difficulty (q : req.query) (d : string)
    (ws : list Term) :
  req.difficulty q = Some d → d ≠ "" → d ≠ "all" →
  selectCategory (req.category q) = Array ws →
  ∃ body, api_terms q = Js.Normal body
    ∧ ∀ t, t ∈ TermsBody.terms body → Term.difficulty t = d ∧ t ∈ ws.
Proof.
  intros Hd H1 H2 Hws. eexists. split; [by apply api_terms_Array|].
  intros t Ht. simpl in Ht.
  eapply elem_of_sublist in Ht; [|apply slice_sublist].
  apply list_elem_of_filter in Ht as [[Hp _]%andb_True Ht]. split; [|done].
  apply Is_true_true, passesDifficulty_DifficultyKeeps in Hp. by apply Hp.
Qed.

(** *** Categories, statistics and the list handler together *)

Lemma getOwn_elem_of {A : Type} (o : Js.object A) (k : string) (v : A) :
  Js.getOwn o k = Some v → (k, v) ∈ o.
Proof.
  induction o as [|[k' v'] o IH]; cbn [Js.getOwn]; [done|].
  destruct (String.eqb_spec k' k) as [->|_].
  - intros [= ->]. left.
  - intros H. right. by apply IH.
Qed.

Lemma getOwn_keys {A : Type} (o : Js.object A) (k : string) :
  k ∈ Js.keys o ↔ is_Some (Js.getOwn o k).
Proof.
  unfold Js.keys. induction o as [|[k' v'] o IH]; cbn [Js.getOwn].
  - split; [by intros ?%elem_of_nil | by intros [? ?]].
  - rewrite fmap_cons, elem_of_cons, IH. simpl.
    destruct (String.eqb_spec k' k) as [->|Hne]; [by split; [eauto|left]|].
    split; [intros [?|?]; [congruence|done] | by right].
Qed.

Lemma getOwn_NoDup {A : Type} (o : Js.object A) (k : string) (v : A) :
  NoDup (Js.keys o) → (k, v) ∈ o → Js.getOwn o k = Some v.
Proof.
  unfold Js.keys. induction o as [|[k' v'] o IH]; [by intros _ ?%elem_of_nil|].
  rewrite fmap_cons, NoDup_cons. simpl. intros [Hk Hnd] Hin.
  cbn [Js.getOwn]. apply elem_of_cons in Hin as [[= -> ->]|Hin].
  - by rewrite String.eqb_refl.
  - destruct (String.eqb_spec k' k) as [->|_]; [|by apply IH].
    destruct Hk. by apply (list_elem_of_fmap_2 fst) in Hin.
Qed.

Lemma set_fresh {A : Type} (o : Js.object A) (k : string) (v : A) :
  k ∉ Js.keys o → Js.set o k v = o ++ [(k, v)].
Proof.
  unfold Js.keys. induction o as [|[k' v'] o IH]; [done|].
  rewrite fmap_cons, not_elem_of_cons. simpl. intros [Hne Hk].
  cbn [Js.set]. apply not_eq_sym, String.eqb_neq in Hne. rewrite Hne.
  by rewrite IH.
Qed.

Lemma fold_set_getOwn {A : Type} (f : string → A) (keys : list string)
    (acc : Js.object A) (c : string) :
  Js.getOwn (fold_left (λ acc key, Js.set acc key (f key)) keys acc) c
  = if decide (c ∈ keys) then Some (f c) else Js.getOwn acc c.
Proof.
  revert acc. induction keys as [|k keys IH]; intros acc; [done|].
  cbn [fold_left]. rewrite IH.
  destruct (decide (c ∈ keys)) as [Hin|Hnin].
  - by rewrite decide_True by by right.
  - destruct (decide (c = k)) as [->|Hne].
    + rewrite decide_True by left. apply getOwn_set_eq.
    + rewrite decide_False by (intros [?|?]%elem_of_cons; done).
      by apply getOwn_set_ne.
Qed.

Lemma fold_set_fresh {A : Type} (f : string → A) (keys : list string)
    (acc : Js.object A) :
  NoDup keys → (∀ k, k ∈ keys → k ∉ Js.keys acc) →
  fold_left (λ acc key, Js.set acc key (f key)) keys acc
  = acc ++ ((λ k, (k, f k)) <$> keys).
Proof.
  revert acc. induction keys as [|k keys IH]; intros acc Hnd Hfresh.
  - by rewrite app_nil_r.
  - apply NoDup_cons in Hnd as [Hk Hnd]. cbn [fold_left].
    rewrite set_fresh by (apply Hfresh; left). rewrite IH; [|done|].
    + by rewrite <-app_assoc.
    + intros k' Hk'. unfold Js.keys. rewrite fmap_app, elem_of_app.
      intros [Hin|Hin%list_elem_of_singleton].
      * by apply (Hfresh k'); [right|].
      * simpl in Hin. by subst.
Qed.

Lemma length_concat_sum {A : Type} (ls : list (list A)) :
  length (concat ls) = sum_list (length <$> ls).
Proof.
  induction ls as [|l ls IH]; [done|]. simpl. by rewrite length_app, IH.
Qed.

Lemma category_counts (o : Js.object (list Term)) :
  NoDup (Js.keys o) →
  (λ key, length (default [] (Js.getOwn o key))) <$> Js.keys o
  = length <$> Js.values o.
Proof.
  intros Hnd. unfold Js.keys, Js.values. rewrite <-!list_fmap_compose.
  apply list_fmap_ext. intros i [k v] Hi. simpl.
  by rewrite (getOwn_NoDup o k v Hnd) by by eapply list_elem_of_lookup_2.
Qed.

(** X7.  The list handler and the statistics agree on difficulties: with no
    category and no search in effect, the request for one of the three
    levels reports as [total] the count the statistics give for that
    level, and the request without a difficulty reports [totalTerms]. *)
Theorem listing_a_difficulty_matches_stats (now : string) (q : req.query) :
  inactive (req.category q) → Js.truthy_opt (req.search q) = false →
  ∃ body, api_terms q = Js.Normal body
    ∧ (inactive (req.difficulty q) →
       TermsBody.total body = StatsBody.totalTerms (api_stats now))
    ∧ (req.difficulty q = Some "beginner" →
       TermsBody.total body
       = StatsBody.beginner (StatsBody.byDifficulty (api_stats now)))
    ∧ (req.difficulty q = Some "intermediate" →
       TermsBody.total body
       = StatsBody.intermediate (StatsBody.byDifficulty (api_stats now)))
    ∧ (req.difficulty q = Some "advanced" →
       TermsBody.total body
       = StatsBody.advanced (StatsBody.byDifficulty (api_stats now))).
Proof.
  intros Hc Hs. eexists.
  split; [by apply api_terms_Array, selectCategory_inactive|]. simpl.
  assert (∀ d, filter (λ t, passesDifficulty d t
                            && passesSearch (req.search q) t) allTerms
               = filter (λ t, passesDifficulty d t) allTerms) as Hf.
  { intros d. apply filter_bool_ext. intros t _.
    by rewrite passesSearch_falsy, andb_true_r. }
  rewrite Hf. unfold countDifficulty. repeat split.
  - intros Hd. rewrite (filter_bool_ext _ (λ _, true)), filter_bool_true; [done|].
    intros t _. by apply passesDifficulty_inactive.
  - by intros ->.
  - by intros ->.
  - by intros ->.
Qed.

(** X8.  The list handler, the statistics and the category list agree on
    categories: for a category the catalog has (other than a category named
    ["all"]), with no difficulty and no search in effect, the [total] of
    the listing is the length of the category, which is also its entry in
    [byCategory] and the [count] of its element in the category list. *)
Theorem listing_a_category_matches_counts (table : Js.object string)
    (now : string) (q : req.query) (c : string) (terms : list Term) :
  req.category q = Some c → c ≠ "" → c ≠ "all" →
  Js.getOwn programmingTermsDatabase c = Some terms →
  inactive (req.difficulty q) → Js.truthy_opt (req.search q) = false →
  ∃ body, api_terms q = Js.Normal body
    ∧ TermsBody.total body = length terms
    ∧ Js.getOwn (StatsBody.byCategory (api_stats now)) c = Some (length terms)
    ∧ ∃ e, e ∈ categoriesWith table
           ∧ CategoryEntry.id e = c ∧ CategoryEntry.count e = length terms.
Proof.
  intros Hc H1 H2 Hown Hd Hs.
  assert (selectCategory (req.category q) = Array terms) as Hws.
  { rewrite Hc, selectCategory_named by done. unfold categoryTerms, Js.get.
    by rewrite Hown. }
  assert (c ∈ Js.keys programmingTermsDatabase) as Hkey.
  { apply getOwn_keys. by rewrite Hown. }
  eexists. split; [by apply api_terms_Array|]. simpl. split; [|split].
  - rewrite (filter_bool_ext _ (λ _, true)), filter_bool_true; [done|].
    intros t _. by rewrite passesDifficulty_inactive, passesSearch_falsy.
  - rewrite fold_set_getOwn, decide_True by done. by rewrite Hown.
  - eexists. split; [by apply list_elem_of_fmap_2|]. simpl. by rewrite Hown.
Qed.

(** X9.  The category list has one element per category of the catalog, in
    declaration order, with [id] and [name] both the category key; these
    ids are the [categories] array of every list response, and their number
    is the [categories] count of the statistics. *)
Theorem category_list_follows_the_catalog (table : Js.object string)
    (now : string) (q : req.query) (ws : list Term) :
  selectCategory (req.category q) = Array ws →
  CategoryEntry.id <$> categoriesWith table = Js.keys programmingTermsDatabase
  ∧ CategoryEntry.name <$> categoriesWith table
    = Js.keys programmingTermsDatabase
  ∧ length (categoriesWith table) = StatsBody.categories (api_stats now)
  ∧ ∃ body, api_terms q = Js.Normal body
            ∧ TermsBody.categories body
              = CategoryEntry.id <$> categoriesWith table.
Proof.
  intros Hws. unfold categoriesWith.
  assert (∀ ks : list string,
            CategoryEntry.id <$> ((λ key, {|
              CategoryEntry.id := key; CategoryEntry.name := key;
              CategoryEntry.count :=
                length (default [] (Js.getOwn programmingTermsDatabase key));
              CategoryEntry.displayName := displayNameOf table key |}) <$> ks)
            = ks) as Hid.
  { intros ks. rewrite <-list_fmap_compose. apply list_fmap_id. }
  split; [apply Hid|]. split.
  { rewrite <-list_fmap_compose. apply list_fmap_id. }
  split; [simpl; by rewrite length_fmap|].
  eexists. split; [by apply api_terms_Array|]. simpl. by rewrite Hid.
Qed.

(** X10.  The counts of the category list are the lengths of the categories
    and add up to the number of terms ([totalTerms] of the statistics). *)
Theorem category_counts_sum_to_total (table : Js.object string) (now : string) :
  NoDup (Js.keys programmingTermsDatabase) →
  CategoryEntry.count <$> categoriesWith table
  = length <$> Js.values programmingTermsDatabase
  ∧ sum_list (CategoryEntry.count <$> categoriesWith table) = length allTerms
  ∧ sum_list (CategoryEntry.count <$> categoriesWith table)
    = StatsBody.totalTerms (api_stats now).
Proof.
  intros Hnd.
  assert (CategoryEntry.count <$> categoriesWith table
          = length <$> Js.values programmingTermsDatabase) as Hc.
  { unfold categoriesWith. rewrite <-list_fmap_compose.
    by rewrite <-category_counts. }
  split; [done|]. rewrite Hc. cbn [api_stats StatsBody.totalTerms].
  unfold allTerms. by rewrite length_concat_sum.
Qed.

(** X11.  The display name of a category: the name the table has for its
    key when that name is not empty, the key itself when the table has no
    name or an empty one and the key is not the name of an inherited
    property; it fails to be a string exactly when the table lacks the key
    and the key names a property inherited from [Object.prototype]. *)
Theorem category_display_names (table : Js.object string)
    (e : CategoryEntry.t) :
  e ∈ categoriesWith table →
  (∀ name, Js.getOwn table (CategoryEntry.id e) = Some name → name ≠ "" →
           CategoryEntry.displayName e = Some name)
  ∧ (Js.getOwn table (CategoryEntry.id e) = Some "" →
     CategoryEntry.displayName e = Some (CategoryEntry.id e))
  ∧ (Js.getOwn table (CategoryEntry.id e) = None →
     CategoryEntry.id e ∉ Js.ObjectPrototypeKeys →
     CategoryEntry.displayName e = Some (CategoryEntry.id e))
  ∧ (CategoryEntry.displayName e = None ↔
     Js.getOwn table (CategoryEntry.id e) = None
     ∧ CategoryEntry.id e ∈ Js.ObjectPrototypeKeys).
Proof.
  intros (key & -> & _)%list_elem_of_fmap. simpl.
  unfold displayNameOf, Js.get.
  destruct (Js.getOwn table key) as [name|].
  - split; [|split; [|split; [|split]]].
    + intros name' [= <-] Hne. by apply truthy_nonempty in Hne as ->.
    + by intros [= ->].
    + done.
    + by destruct (Js.truthy name).
    + by intros [? _].
  - destruct (Js.array_includes Js.ObjectPrototypeKeys key) eqn:Hinh.
    + apply array_includes_elem_of in Hinh.
      split; [|split; [|split; [|split]]]; done.
    + assert (key ∉ Js.ObjectPrototypeKeys) as Hnin.
      { intros Hin%array_includes_elem_of. congruence. }
      split; [|split; [|split; [|split]]]; try done. by intros [_ ?].
Qed.

(** X12.  [byCategory] of the statistics has exactly one entry per category,
    in declaration order, holding the length of the category; the entries
    add up to [totalTerms]. *)
Theorem byCategory_lists_every_category (now : string) :
  NoDup (Js.keys programmingTermsDatabase) →
  StatsBody.byCategory (api_stats now)
  = (λ kv, (kv.1, length kv.2)) <$> programmingTermsDatabase
  ∧ sum_list (Js.values (StatsBody.byCategory (api_stats now)))
    = StatsBody.totalTerms (api_stats now).
Proof.
  intros Hnd.
  assert (StatsBody.byCategory (api_stats now)
          = (λ kv, (kv.1, length kv.2)) <$> programmingTermsDatabase) as Hby.
  { simpl. rewrite fold_set_fresh; [|done|by intros ? _ ?%elem_of_nil].
    simpl. unfold Js.keys. rewrite <-list_fmap_compose.
    apply list_fmap_ext. intros i [k v] Hi. simpl. f_equal.
    by rewrite (getOwn_NoDup _ k v Hnd) by by eapply list_elem_of_lookup_2. }
  split; [done|]. rewrite Hby. unfold Js.values. rewrite <-list_fmap_compose.
  simpl. unfold allTerms. rewrite length_concat_sum. unfold Js.values.
  by rewrite <-list_fmap_compose.
Qed.

(** *** The detail handler: status and choice of the term *)

(** X13.  The detail handler answers 200 exactly for the ids that occur in
    [allTerms] and 404 with [{error: "Term not found"}] for every other
    string. *)
Theorem detail_status (id : string) :
  (status (api_terms_id id) = 200%Z ↔ id ∈ Term.id <$> allTerms)
  ∧ (status (api_terms_id id) = 404%Z ↔ id ∉ Term.id <$> allTerms)
  ∧ (id ∉ Term.id <$> allTerms →
     api_terms_id id
     = Reply 404 (JObject [ ("error", JString "Term not found") ])).
Proof.
  unfold api_terms_id. destruct (findTerm id) as [term|] eqn:Hfind; simpl.
  - assert (id ∈ Term.id <$> allTerms) as Hin.
    { apply findTerm_Some in Hfind as [Hin <-].
      by apply list_elem_of_fmap_2. }
    repeat split; try done.
  - assert (id ∉ Term.id <$> allTerms) as Hnin.
    { intros [term Hterm]%findTerm_present. congruence. }
    repeat split; try done.
Qed.

(** X14.  When several terms carry the requested id, the detail handler
    answers with the first of them in [allTerms] order: no term before the
    one it returns has that id. *)
Theorem detail_answers_first_term_with_id (id : string) :
  id ∈ Term.id <$> allTerms →
  ∃ pre term post,
    allTerms = pre ++ term :: post
    ∧ Term.id term = id
    ∧ (∀ t, t ∈ pre → Term.id t ≠ id)
    ∧ api_terms_id id
      = Reply 200
          (JObject (Js.set (termObject term) "relatedTerms"
                      (JArray (relatedRef <$> relatedTerms term)))).
Proof.
  intros [term Hfind]%findTerm_present.
  pose proof Hfind as (pre & post & Hall & Hid%String.eqb_eq & Hpre)%find_first.
  exists pre, term, post. split; [done|]. split; [done|]. split.
  - intros t Ht Heq. specialize (Hpre t Ht). simpl in Hpre.
    by rewrite Heq, String.eqb_refl in Hpre.
  - unfold api_terms_id. by rewrite Hfind.
Qed.

(** *** Random sampling: membership and unreadable counts *)

(** X15.  Every term of a random sample is a term of the catalog and the
    sample is never longer than the catalog; a count that [parseInt] cannot
    read gives the empty sample, and a request without a count gives
    exactly one term when the catalog is not empty. *)
Theorem random_sample_within_catalog (g : Rng) (count : option string) :
  (∀ t, t ∈ api_random g count → t ∈ allTerms)
  ∧ (length (api_random g count) ≤ length allTerms)%nat
  ∧ (Js.parseInt (default "1" count) = Js.NaN → api_random g count = [])
  ∧ (count = None → allTerms ≠ [] → length (api_random g count) = 1).
Proof.
  pose proof (sortRandom_Permutation g allTerms) as Hperm.
  unfold api_random. repeat split.
  - intros t Ht. eapply elem_of_sublist in Ht; [|apply slice_sublist].
    by rewrite Hperm in Ht.
  - rewrite <-(Permutation_length Hperm). apply sublist_length, slice_sublist.
  - intros ->. apply slice_end_NaN.
  - intros -> Hne. change (Js.parseInt (default "1" None)) with (Js.Num 1).
    rewrite slice_from_0, length_take by lia.
    rewrite (Permutation_length Hperm). destruct allTerms; [done|]. simpl. lia.
Qed.

End Engine.

(** ** The handlers on the catalog excerpt *)

Lemma Sample_insert_Permutation (x : Term) (sorted : list Term)
    (coins : list bool) :
  (Sample.insert x sorted coins).1 ≡ₚ x :: sorted.
Proof.
  revert coins. induction sorted as [|y sorted IH]; intros coins; [done|].
  destruct coins as [|[] coins]; simpl; [done..|].
  specialize (IH coins). destruct (Sample.insert x sorted coins) as [r coins'].
  simpl in *. rewrite IH. apply Permutation_swap.
Qed.

Lemma Sample_sortFrom_Permutation (l sorted : list Term) (coins : list bool) :
  Sample.sortFrom sorted coins l ≡ₚ sorted ++ l.
Proof.
  revert sorted coins. induction l as [|x l IH]; intros sorted coins; simpl.
  - by rewrite app_nil_r.
  - pose proof (Sample_insert_Permutation x sorted coins) as Hins.
    destruct (Sample.insert x sorted coins) as [sorted' coins'].
    simpl in Hins. rewrite IH, Hins. apply Permutation_middle.
Qed.

Lemma Sample_sortRandom_Permutation (coins : list bool) (l : list Term) :
  Sample.sortRandom coins l ≡ₚ l.
Proof. apply (Sample_sortFrom_Permutation l []). Qed.

(** C1, instance: [category=javascript] on the excerpt. *)
Lemma category_replaces_working_set_witness :
  "javascript" ≠ "all"
  ∧ Js.get Sample.programmingTermsDatabase "javascript" ≠ Js.Inherited
  ∧ selectCategory Sample.programmingTermsDatabase (Some "javascript")
    = Array (termsOf Sample.programmingTermsDatabase "javascript")
  ∧ ∃ body,
      api_terms Js.asciiToLowerCase Sample.programmingTermsDatabase
        (req.mkQuery (Some "javascript") None None None None)
      = Js.Normal body
      ∧ ∀ t, t ∈ TermsBody.terms body
             → t ∈ termsOf Sample.programmingTermsDatabase "javascript".
Proof.
  split; [discriminate|]. split; [by vm_compute|].
  apply (category_replaces_working_set Js.asciiToLowerCase
           Sample.programmingTermsDatabase
           (req.mkQuery (Some "javascript") None None None None) "javascript");
    [reflexivity | discriminate | discriminate | by vm_compute].
Defined.

(** C1, counterexample: a category that is present, and is not ["all"], yet
    does not make [termsOf] the working set.  The empty string leaves the
    whole of [allTerms] in place, and [constructor] puts a non-array there
    (the request then fails). *)
Lemma category_present_without_termsOf :
  ("" ≠ "all"
   ∧ selectCategory Sample.programmingTermsDatabase (Some "")
     = Array (allTerms Sample.programmingTermsDatabase)
   ∧ selectCategory Sample.programmingTermsDatabase (Some "")
     ≠ Array (termsOf Sample.programmingTermsDatabase ""))
  ∧ ("constructor" ≠ "all"
     ∧ selectCategory Sample.programmingTermsDatabase (Some "constructor")
       ≠ Array (termsOf Sample.programmingTermsDatabase "constructor")
     ∧ api_terms Js.asciiToLowerCase Sample.programmingTermsDatabase
         (req.mkQuery (Some "constructor") None None None None)
       = Js.Throw "filteredTerms.slice is not a function").
Proof.
  repeat split; try discriminate; try reflexivity; by vm_compute.
Qed.

(** C2, instance: [search=Functions] over the whole excerpt. *)
Lemma search_keeps_matching_terms_witness :
  ∃ kept,
    filteredTerms Js.asciiToLowerCase Sample.programmingTermsDatabase
      (req.mkQuery None None (Some "Functions") None None)
    = Js.Normal (Array kept)
    ∧ kept = filter (λ t, passesDifficulty None t
                          && searchMatches Js.asciiToLowerCase "Functions" t)
               (allTerms Sample.programmingTermsDatabase)
    ∧ (kept `sublist_of` allTerms Sample.programmingTermsDatabase)
    ∧ ∀ t, t ∈ kept ↔
           t ∈ allTerms Sample.programmingTermsDatabase
           ∧ DifficultyKeeps None t
           ∧ SearchKeeps Js.asciiToLowerCase "Functions" t.
Proof.
  apply (search_keeps_matching_terms Js.asciiToLowerCase
           Sample.programmingTermsDatabase
           (req.mkQuery None None (Some "Functions") None None) "Functions"
           (allTerms Sample.programmingTermsDatabase));
    [reflexivity | discriminate | reflexivity].
Defined.

(** C2, counterexample: the query ["closure "] (trailing space).  Trimmed
    and lower-cased it occurs in the name of [js_1], so the criterion of the
    specification keeps that term; the handler searches for the string with
    its space and keeps nothing. *)
Lemma search_is_not_trimmed :
  filteredTerms Js.asciiToLowerCase Sample.programmingTermsDatabase
    (req.mkQuery None None (Some "closure ") None None)
  = Js.Normal (Array [])
  ∧ filter (λ t, specSearchKeeps Js.asciiToLowerCase "closure " t)
      (allTerms Sample.programmingTermsDatabase)
    = [Sample.js_1]
  ∧ filteredTerms Js.asciiToLowerCase Sample.programmingTermsDatabase
      (req.mkQuery None None (Some "closure ") None None)
    ≠ Js.Normal
        (Array (filter (λ t, specSearchKeeps Js.asciiToLowerCase "closure " t)
                  (allTerms Sample.programmingTermsDatabase))).
Proof.
  split; [by vm_compute|]. split; [by vm_compute|]. by vm_compute.
Qed.

(** C3, instance: [limit=2&offset=1] over the whole excerpt. *)
Lemma pagination_of_nonnegative_window_witness :
  ∃ body,
    api_terms Js.asciiToLowerCase Sample.programmingTermsDatabase
      (req.mkQuery None None None (Some "2") (Some "1"))
    = Js.Normal body
    ∧ filteredTerms Js.asciiToLowerCase Sample.programmingTermsDatabase
        (req.mkQuery None None None (Some "2") (Some "1"))
      = Js.Normal
          (Array (filter (λ t, passesDifficulty None t
                               && passesSearch Js.asciiToLowerCase None t)
                    (allTerms Sample.programmingTermsDatabase)))
    ∧ TermsBody.total body
      = length (filter (λ t, passesDifficulty None t
                             && passesSearch Js.asciiToLowerCase None t)
                  (allTerms Sample.programmingTermsDatabase))
    ∧ Z.of_nat (length (TermsBody.terms body))
      = specPageLength 2 1 (Z.of_nat (TermsBody.total body))
    ∧ TermsBody.hasMore body = (1 + 2 <? Z.of_nat (TermsBody.total body))%Z.
Proof.
  apply (pagination_of_nonnegative_window Js.asciiToLowerCase
           Sample.programmingTermsDatabase
           (req.mkQuery None None None (Some "2") (Some "1"))
           (allTerms Sample.programmingTermsDatabase) 2 1);
    [reflexivity | reflexivity | reflexivity | lia | lia].
Defined.

(** C3, counterexample: integer parameters below zero.  With [offset=-1]
    the page is the last term alone, where the formula gives
    [min(50, max(0, 4 + 1)) = 5]; with [limit=-1] the page is all but the
    last term, where the formula gives [-1]. *)
Lemma negative_window_breaks_page_length :
  (Js.parseInt "-1" = Js.Num (-1)
   ∧ api_terms Js.asciiToLowerCase Sample.programmingTermsDatabase
       (req.mkQuery None None None None (Some "-1"))
     = Js.Normal {|
         TermsBody.terms := [Sample.datastructures_ds_1];
         TermsBody.total := 4;
         TermsBody.hasMore := false;
         TermsBody.categories := ["javascript"; "datascience"; "datastructures"];
         TermsBody.difficulties := ["beginner"; "intermediate"; "advanced"]
       |}
   ∧ Z.of_nat (length [Sample.datastructures_ds_1]) ≠ specPageLength 50 (-1) 4)
  ∧ (api_terms Js.asciiToLowerCase Sample.programmingTermsDatabase
       (req.mkQuery None None None (Some "-1") None)
     = Js.Normal {|
         TermsBody.terms := [Sample.js_1; Sample.js_2; Sample.datascience_ds_1];
         TermsBody.total := 4;
         TermsBody.hasMore := true;
         TermsBody.categories := ["javascript"; "datascience"; "datastructures"];
         TermsBody.difficulties := ["beginner"; "intermediate"; "advanced"]
       |}
     ∧ Z.of_nat (length [Sample.js_1; Sample.js_2; Sample.datascience_ds_1])
       ≠ specPageLength (-1) 0 4).
Proof.
  repeat split; try reflexivity; by vm_compute.
Qed.

(** C4, instance: the detail of [js_1]; [js_2] is related to it twice over
    (shared tag [functions], hint [hoisting]). *)
Lemma related_terms_are_first_five_witness :
  ∃ pre term post obj,
    allTerms Sample.programmingTermsDatabase = pre ++ term :: post
    ∧ Term.id term = "js_1"
    ∧ (∀ t, t ∈ pre → Term.id t ≠ "js_1")
    ∧ api_terms_id Sample.programmingTermsDatabase "js_1" = Reply 200 (JObject obj)
    ∧ Js.getOwn obj "id" = Some (JString "js_1")
    ∧ (∃ related scanned rest,
         Js.getOwn obj "relatedTerms"
         = Some (JArray ((λ t, JObject [ ("id", JString (Term.id t));
                                  ("name", JString (Term.name t));
                                  ("chinese", JString (Term.chinese t)) ])
                         <$> related))
         ∧ related = firstMatching (isRelated term) 5 (allTerms Sample.programmingTermsDatabase)
         ∧ allTerms Sample.programmingTermsDatabase = scanned ++ rest
         ∧ related = filter (λ t, isRelated term t) scanned
         ∧ (rest = [] ∨ length related = 5)
         ∧ (length related ≤ 5)%nat
         ∧ (related `sublist_of` allTerms Sample.programmingTermsDatabase)
         ∧ (term ∉ related)
         ∧ (∀ t, t ∈ related → t ∈ allTerms Sample.programmingTermsDatabase ∧ Related term t))
    ∧ (∀ t, isRelated term t = true ↔ Related term t)
    ∧ ((∀ t, t ∈ allTerms Sample.programmingTermsDatabase → Term.id t = "js_1" → t = term) →
       ∀ t, t ∈ allTerms Sample.programmingTermsDatabase → Term.id t ≠ Term.id term ↔ t ≠ term)
    ∧ (NoDup (Term.id <$> allTerms Sample.programmingTermsDatabase) →
       ∀ t, t ∈ allTerms Sample.programmingTermsDatabase → Term.id t ≠ Term.id term ↔ t ≠ term).
Proof.
  apply (related_terms_are_first_five Sample.programmingTermsDatabase "js_1").
  vm_compute. left.
Defined.

(** C5, instance: [count=2] with a generator that answers four comparisons. *)
Lemma random_sample_contract_witness :
  let r := api_random Sample.programmingTermsDatabase (list bool)
             Sample.sortRandom [false; true; false; false] (Some "2") in
  (2%Z = 0%Z → r = [])
  ∧ ((0 < 2)%Z
     → length r
       = Nat.min (Z.to_nat 2) (length (allTerms Sample.programmingTermsDatabase)))
  ∧ ((Z.of_nat (length (allTerms Sample.programmingTermsDatabase)) ≤ 2)%Z
     → r = Sample.sortRandom [false; true; false; false]
             (allTerms Sample.programmingTermsDatabase)
       ∧ r ≡ₚ allTerms Sample.programmingTermsDatabase)
  ∧ ((2 < 0)%Z
     → r = take (length (allTerms Sample.programmingTermsDatabase)
                 - Z.to_nat (- 2))
             (Sample.sortRandom [false; true; false; false]
                (allTerms Sample.programmingTermsDatabase)))
  ∧ (r `sublist_of` Sample.sortRandom [false; true; false; false]
                      (allTerms Sample.programmingTermsDatabase))
  ∧ (NoDup (Term.id <$> allTerms Sample.programmingTermsDatabase)
     → NoDup (Term.id <$> r)).
Proof.
  apply (random_sample_contract Sample.programmingTermsDatabase (list bool)
           Sample.sortRandom Sample_sortRandom_Permutation
           [false; true; false; false] (Some "2") 2).
  reflexivity.
Defined.

(** C5, counterexample.  A count below zero does not give an empty result:
    [count=-1] returns three of the four terms of the excerpt.  And with
    [count=4] the whole excerpt comes back, in which the id [ds_1] occurs
    twice, once from [datascience] and once from [datastructures]. *)
Lemma negative_count_and_repeated_id :
  (Js.parseInt "-1" = Js.Num (-1)
   ∧ api_random Sample.programmingTermsDatabase (list bool)
       Sample.sortRandom [false; true; false; false] (Some "-1")
     = [Sample.datascience_ds_1; Sample.js_1; Sample.datastructures_ds_1]
   ∧ api_random Sample.programmingTermsDatabase (list bool)
       Sample.sortRandom [false; true; false; false] (Some "-1") ≠ [])
  ∧ (Term.id <$> api_random Sample.programmingTermsDatabase (list bool)
                   Sample.sortRandom [false; true; false; false] (Some "4")
     = ["ds_1"; "js_1"; "ds_1"; "js_2"]
     ∧ ¬ NoDup (Term.id <$> api_random Sample.programmingTermsDatabase
                              (list bool) Sample.sortRandom
                              [false; true; false; false] (Some "4"))).
Proof.
  split; [repeat split; by vm_compute|]. split; [by vm_compute|].
  vm_compute. intros Hnd. apply NoDup_cons in Hnd as [Hnotin _].
  apply Hnotin. right. left.
Qed.

(** C6, instance: [closure] and [CLOSURE] select the same terms of
    [javascript], so both queries get the same response. *)
Lemma search_acts_only_within_category_witness :
  api_terms Js.asciiToLowerCase Sample.programmingTermsDatabase
    (req.mkQuery (Some "javascript") None (Some "closure") None None)
  = api_terms Js.asciiToLowerCase Sample.programmingTermsDatabase
      (req.mkQuery (Some "javascript") None (Some "CLOSURE") None None).
Proof.
  apply (search_acts_only_within_category Js.asciiToLowerCase
           Sample.programmingTermsDatabase
           (req.mkQuery (Some "javascript") None (Some "closure") None None)
           (req.mkQuery (Some "javascript") None (Some "CLOSURE") None None)
           "javascript");
    [reflexivity | reflexivity | discriminate | discriminate | by vm_compute
    | reflexivity | reflexivity | reflexivity |].
  intros t Ht. vm_compute in Ht.
  apply elem_of_cons in Ht as [->|Ht]; [reflexivity|].
  apply elem_of_cons in Ht as [->|Ht]; [reflexivity|].
  by apply elem_of_nil in Ht.
Defined.

(** C6, counterexample: with [category=javascript], the query without a
    search string returns [js_1] and [js_2]; the query with
    [search=hoisting] returns [js_2] alone. *)
Lemma search_changes_category_result :
  "javascript" ≠ "all"
  ∧ api_terms Js.asciiToLowerCase Sample.programmingTermsDatabase
      (req.mkQuery (Some "javascript") None None None None)
    = Js.Normal {|
        TermsBody.terms := [Sample.js_1; Sample.js_2];
        TermsBody.total := 2;
        TermsBody.hasMore := false;
        TermsBody.categories := ["javascript"; "datascience"; "datastructures"];
        TermsBody.difficulties := ["beginner"; "intermediate"; "advanced"]
      |}
  ∧ api_terms Js.asciiToLowerCase Sample.programmingTermsDatabase
      (req.mkQuery (Some "javascript") None (Some "hoisting") None None)
    = Js.Normal {|
        TermsBody.terms := [Sample.js_2];
        TermsBody.total := 1;
        TermsBody.hasMore := false;
        TermsBody.categories := ["javascript"; "datascience"; "datastructures"];
        TermsBody.difficulties := ["beginner"; "intermediate"; "advanced"]
      |}
  ∧ api_terms Js.asciiToLowerCase Sample.programmingTermsDatabase
      (req.mkQuery (Some "javascript") None None None None)
    ≠ api_terms Js.asciiToLowerCase Sample.programmingTermsDatabase
        (req.mkQuery (Some "javascript") None (Some "hoisting") None None).
Proof.
  split; [discriminate|]. split; [by vm_compute|]. split; by vm_compute.
Qed.

(** C7, instance: [category=javascript&difficulty=intermediate&search=scope]. *)
Lemma filtering_preserves_order_witness :
  ∃ kept body,
    filteredTerms Js.asciiToLowerCase Sample.programmingTermsDatabase
      (req.mkQuery (Some "javascript") (Some "intermediate") (Some "scope")
         None None)
    = Js.Normal (Array kept)
    ∧ (kept `sublist_of` [Sample.js_1; Sample.js_2])
    ∧ api_terms Js.asciiToLowerCase Sample.programmingTermsDatabase
        (req.mkQuery (Some "javascript") (Some "intermediate") (Some "scope")
           None None)
      = Js.Normal body
    ∧ (TermsBody.terms body `sublist_of` kept).
Proof.
  apply (filtering_preserves_order Js.asciiToLowerCase
           Sample.programmingTermsDatabase
           (req.mkQuery (Some "javascript") (Some "intermediate")
              (Some "scope") None None)
           [Sample.js_1; Sample.js_2]).
  reflexivity.
Defined.

(** C9, instance: [category=constructor] on the excerpt. *)
Lemma inherited_category_name_throws_witness :
  selectCategory Sample.programmingTermsDatabase (Some "constructor") = NotArray
  ∧ ∃ message,
      api_terms Js.asciiToLowerCase Sample.programmingTermsDatabase
        (req.mkQuery (Some "constructor") None None None None)
      = Js.Throw message.
Proof.
  apply (inherited_category_name_throws Js.asciiToLowerCase
           Sample.programmingTermsDatabase
           (req.mkQuery (Some "constructor") None None None None)
           "constructor");
    [reflexivity | left | reflexivity].
Defined.

(** C10, instance: the detail of [js_1]. *)
Lemma detail_overwrites_only_relatedTerms_witness :
  ∃ pre term post obj,
    allTerms Sample.programmingTermsDatabase = pre ++ term :: post
    ∧ Term.id term = "js_1"
    ∧ (∀ t, t ∈ pre → Term.id t ≠ "js_1")
    ∧ api_terms_id Sample.programmingTermsDatabase "js_1" = Reply 200 (JObject obj)
    ∧ Js.getOwn obj "relatedTerms"
      = Some (JArray ((λ t, JObject [ ("id", JString (Term.id t));
                                  ("name", JString (Term.name t));
                                  ("chinese", JString (Term.chinese t)) ])
                      <$> firstMatching (isRelated term) 5 (allTerms Sample.programmingTermsDatabase)))
    ∧ (∀ t, isRelated term t = true ↔ Related term t)
    ∧ (∀ hint : string,
         JString hint
         ∉ (λ t, JObject [ ("id", JString (Term.id t));
                                  ("name", JString (Term.name t));
                                  ("chinese", JString (Term.chinese t)) ])
           <$> firstMatching (isRelated term) 5 (allTerms Sample.programmingTermsDatabase))
    ∧ (∀ hints, Term.relatedTerms term = Some hints → hints ≠ [] →
                Js.getOwn obj "relatedTerms"
                ≠ Some (JArray (JString <$> hints)))
    ∧ Js.keys obj
      = [ "id"; "name"; "chinese"; "description"; "difficulty"; "tags";
          "example"; "useCases"; "relatedTerms" ]
    ∧ Js.getOwn obj "id" = Some (JString (Term.id term))
    ∧ Js.getOwn obj "name" = Some (JString (Term.name term))
    ∧ Js.getOwn obj "chinese" = Some (JString (Term.chinese term))
    ∧ Js.getOwn obj "description" = Some (JString (Term.description term))
    ∧ Js.getOwn obj "difficulty" = Some (JString (Term.difficulty term))
    ∧ Js.getOwn obj "tags" = Some (JArray (JString <$> Term.tags term))
    ∧ Js.getOwn obj "example" = Some (JString (Term.example term))
    ∧ Js.getOwn obj "useCases" = Some (JArray (JString <$> Term.useCases term))
    ∧ (∀ k, k ≠ "relatedTerms" →
            Js.getOwn obj k = Js.getOwn (termObject term) k)
    ∧ (∀ hints, Term.relatedTerms term = Some hints →
                Js.keys obj = Js.keys (termObject term)).
Proof.
  apply (detail_overwrites_only_relatedTerms Sample.programmingTermsDatabase
           "js_1").
  vm_compute. left.
Defined.

(** X2, instance: [category=all&difficulty=&search=] against the request
    without parameters. *)
Lemma inactive_parameters_are_ignored_witness :
  api_terms Js.asciiToLowerCase Sample.programmingTermsDatabase
    (req.mkQuery (Some "all") (Some "") (Some "") None None)
  = api_terms Js.asciiToLowerCase Sample.programmingTermsDatabase
      (req.mkQuery None None None None None).
Proof.
  apply (inactive_parameters_are_ignored Js.asciiToLowerCase
           Sample.programmingTermsDatabase
           (req.mkQuery (Some "all") (Some "") (Some "") None None)
           (req.mkQuery None None None None None)).
  - right. split; [by right; right | by left].
  - right. split; [by right; left | by left].
  - right. split; reflexivity.
  - reflexivity.
  - reflexivity.
Defined.

(** X3, instance: [limit=ten]. *)
Lemma unparseable_window_gives_empty_page_witness :
  ∃ body,
    api_terms Js.asciiToLowerCase Sample.programmingTermsDatabase
      (req.mkQuery None None None (Some "ten") None)
    = Js.Normal body
    ∧ TermsBody.terms body = []
    ∧ TermsBody.hasMore body = false
    ∧ TermsBody.total body
      = length (filter (λ t, passesDifficulty None t
                             && passesSearch Js.asciiToLowerCase None t)
                  (allTerms Sample.programmingTermsDatabase)).
Proof.
  apply (unparseable_window_gives_empty_page Js.asciiToLowerCase
           Sample.programmingTermsDatabase
           (req.mkQuery None None None (Some "ten") None)
           (allTerms Sample.programmingTermsDatabase));
    [reflexivity | right; reflexivity].
Defined.

(** X4, instance: the windows [1..2), [2..4) and [1..4) of the excerpt. *)
Lemma consecutive_pages_concatenate_witness :
  ∃ b1 b2 b12,
    api_terms Js.asciiToLowerCase Sample.programmingTermsDatabase
      (withWindow (req.mkQuery None None None None None) (Some "1") (Some "1"))
    = Js.Normal b1
    ∧ api_terms Js.asciiToLowerCase Sample.programmingTermsDatabase
        (withWindow (req.mkQuery None None None None None) (Some "2") (Some "2"))
      = Js.Normal b2
    ∧ api_terms Js.asciiToLowerCase Sample.programmingTermsDatabase
        (withWindow (req.mkQuery None None None None None) (Some "3") (Some "1"))
      = Js.Normal b12
    ∧ TermsBody.terms b1 ++ TermsBody.terms b2 = TermsBody.terms b12
    ∧ TermsBody.total b1 = TermsBody.total b12
    ∧ TermsBody.total b2 = TermsBody.total b12.
Proof.
  apply (consecutive_pages_concatenate Js.asciiToLowerCase
           Sample.programmingTermsDatabase
           (req.mkQuery None None None None None)
           (allTerms Sample.programmingTermsDatabase)
           "1" "2" "1" "2" "3" 1 1 2);
    [reflexivity | reflexivity | reflexivity | reflexivity | reflexivity
    | reflexivity | lia | lia | lia].
Defined.

(** X5, instance: [limit=2&offset=1] on the excerpt. *)
Lemma hasMore_meaning_witness :
  ∃ body,
    api_terms Js.asciiToLowerCase Sample.programmingTermsDatabase
      (req.mkQuery None None None (Some "2") (Some "1"))
    = Js.Normal body
    ∧ (TermsBody.hasMore body = true →
       Z.of_nat (length (TermsBody.terms body)) = 2%Z
       ∧ drop (Z.to_nat (1 + 2))
           (filter (λ t, passesDifficulty None t
                         && passesSearch Js.asciiToLowerCase None t)
              (allTerms Sample.programmingTermsDatabase)) ≠ [])
    ∧ (TermsBody.hasMore body = false →
       TermsBody.terms body
       = drop (Z.to_nat 1)
           (filter (λ t, passesDifficulty None t
                         && passesSearch Js.asciiToLowerCase None t)
              (allTerms Sample.programmingTermsDatabase))
       ∧ drop (Z.to_nat (1 + 2))
           (filter (λ t, passesDifficulty None t
                         && passesSearch Js.asciiToLowerCase None t)
              (allTerms Sample.programmingTermsDatabase)) = []).
Proof.
  apply (hasMore_meaning Js.asciiToLowerCase Sample.programmingTermsDatabase
           (req.mkQuery None None None (Some "2") (Some "1"))
           (allTerms Sample.programmingTermsDatabase) 2 1);
    [reflexivity | reflexivity | reflexivity | lia | lia].
Defined.

(** X6, instance: [difficulty=intermediate&search=scope] against
    [difficulty=intermediate] alone. *)
Lemma dropping_filters_keeps_results_witness :
  ∃ kept kept' body body',
    filteredTerms Js.asciiToLowerCase Sample.programmingTermsDatabase
      (req.mkQuery None (Some "intermediate") (Some "scope") None None)
    = Js.Normal (Array kept)
    ∧ filteredTerms Js.asciiToLowerCase Sample.programmingTermsDatabase
        (req.mkQuery None (Some "intermediate") None None None)
      = Js.Normal (Array kept')
    ∧ (kept `sublist_of` kept')
    ∧ api_terms Js.asciiToLowerCase Sample.programmingTermsDatabase
        (req.mkQuery None (Some "intermediate") (Some "scope") None None)
      = Js.Normal body
    ∧ api_terms Js.asciiToLowerCase Sample.programmingTermsDatabase
        (req.mkQuery None (Some "intermediate") None None None)
      = Js.Normal body'
    ∧ (TermsBody.total body ≤ TermsBody.total body')%nat.
Proof.
  apply (dropping_filters_keeps_results Js.asciiToLowerCase
           Sample.programmingTermsDatabase
           (req.mkQuery None (Some "intermediate") (Some "scope") None None)
           (req.mkQuery None (Some "intermediate") None None None)
           (allTerms Sample.programmingTermsDatabase));
    [reflexivity | reflexivity | left; reflexivity | right; reflexivity].
Defined.

(** X16, instance: [difficulty=intermediate] on the excerpt. *)
Lemma page_terms_carry_the_difficulty_witness :
  ∃ body,
    api_terms Js.asciiToLowerCase Sample.programmingTermsDatabase
      (req.mkQuery None (Some "intermediate") None None None)
    = Js.Normal body
    ∧ ∀ t, t ∈ TermsBody.terms body →
           Term.difficulty t = "intermediate"
           ∧ t ∈ allTerms Sample.programmingTermsDatabase.
Proof.
  apply (page_terms_carry_the_difficulty Js.asciiToLowerCase
           Sample.programmingTermsDatabase
           (req.mkQuery None (Some "intermediate") None None None)
           "intermediate" (allTerms Sample.programmingTermsDatabase));
    [reflexivity | discriminate | discriminate | reflexivity].
Defined.

(** X7, instance: [difficulty=beginner] on the excerpt. *)
Lemma listing_a_difficulty_matches_stats_witness :
  ∃ body,
    api_terms Js.asciiToLowerCase Sample.programmingTermsDatabase
      (req.mkQuery None (Some "beginner") None None None)
    = Js.Normal body
    ∧ (inactive (Some "beginner") →
       TermsBody.total body
       = StatsBody.totalTerms (api_stats Sample.programmingTermsDatabase "now"))
    ∧ (Some "beginner" = Some "beginner" →
       TermsBody.total body
       = StatsBody.beginner
           (StatsBody.byDifficulty
              (api_stats Sample.programmingTermsDatabase "now")))
    ∧ (Some "beginner" = Some "intermediate" →
       TermsBody.total body
       = StatsBody.intermediate
           (StatsBody.byDifficulty
              (api_stats Sample.programmingTermsDatabase "now")))
    ∧ (Some "beginner" = Some "advanced" →
       TermsBody.total body
       = StatsBody.advanced
           (StatsBody.byDifficulty
              (api_stats Sample.programmingTermsDatabase "now"))).
Proof.
  apply (listing_a_difficulty_matches_stats Js.asciiToLowerCase
           Sample.programmingTermsDatabase "now"
           (req.mkQuery None (Some "beginner") None None None));
    [by left | reflexivity].
Defined.

(** X8, instance: [category=javascript] on the excerpt. *)
Lemma listing_a_category_matches_counts_witness :
  ∃ body,
    api_terms Js.asciiToLowerCase Sample.programmingTermsDatabase
      (req.mkQuery (Some "javascript") None None None None)
    = Js.Normal body
    ∧ TermsBody.total body = length [Sample.js_1; Sample.js_2]
    ∧ Js.getOwn
        (StatsBody.byCategory (api_stats Sample.programmingTermsDatabase "now"))
        "javascript"
      = Some (length [Sample.js_1; Sample.js_2])
    ∧ ∃ e, e ∈ categoriesWith Sample.programmingTermsDatabase displayNames
           ∧ CategoryEntry.id e = "javascript"
           ∧ CategoryEntry.count e = length [Sample.js_1; Sample.js_2].
Proof.
  apply (listing_a_category_matches_counts Js.asciiToLowerCase
           Sample.programmingTermsDatabase displayNames "now"
           (req.mkQuery (Some "javascript") None None None None)
           "javascript" [Sample.js_1; Sample.js_2]);
    [reflexivity | discriminate | discriminate | reflexivity | by left
    | reflexivity].
Defined.

(** X9, instance: the category list of the excerpt. *)
Lemma category_list_follows_the_catalog_witness :
  CategoryEntry.id <$> categoriesWith Sample.programmingTermsDatabase displayNames
  = Js.keys Sample.programmingTermsDatabase
  ∧ CategoryEntry.name
      <$> categoriesWith Sample.programmingTermsDatabase displayNames
    = Js.keys Sample.programmingTermsDatabase
  ∧ length (categoriesWith Sample.programmingTermsDatabase displayNames)
    = StatsBody.categories (api_stats Sample.programmingTermsDatabase "now")
  ∧ ∃ body,
      api_terms Js.asciiToLowerCase Sample.programmingTermsDatabase
        (req.mkQuery None None None None None)
      = Js.Normal body
      ∧ TermsBody.categories body
        = CategoryEntry.id
            <$> categoriesWith Sample.programmingTermsDatabase displayNames.
Proof.
  apply (category_list_follows_the_catalog Js.asciiToLowerCase
           Sample.programmingTermsDatabase displayNames "now"
           (req.mkQuery None None None None None)
           (allTerms Sample.programmingTermsDatabase)).
  reflexivity.
Defined.

Lemma Sample_keys_NoDup : NoDup (Js.keys Sample.programmingTermsDatabase).
Proof. apply (bool_decide_unpack _). by vm_compute. Qed.

(** X10, instance: the counts 2, 1 and 1 of the excerpt. *)
Lemma category_counts_sum_to_total_witness :
  CategoryEntry.count
    <$> categoriesWith Sample.programmingTermsDatabase displayNames
  = length <$> Js.values Sample.programmingTermsDatabase
  ∧ sum_list (CategoryEntry.count
                <$> categoriesWith Sample.programmingTermsDatabase displayNames)
    = length (allTerms Sample.programmingTermsDatabase)
  ∧ sum_list (CategoryEntry.count
                <$> categoriesWith Sample.programmingTermsDatabase displayNames)
    = StatsBody.totalTerms (api_stats Sample.programmingTermsDatabase "now").
Proof.
  apply (category_counts_sum_to_total Sample.programmingTermsDatabase
           displayNames "now" Sample_keys_NoDup).
Defined.

(** X11, instance: the element of [javascript] under the table of the
    earlier revision. *)
Lemma category_display_names_witness :
  let e := CategoryEntry.mk "javascript" "javascript" 2 (Some "JavaScript核心") in
  (∀ name, Js.getOwn displayNames_part_000 (CategoryEntry.id e) = Some name →
           name ≠ "" → CategoryEntry.displayName e = Some name)
  ∧ (Js.getOwn displayNames_part_000 (CategoryEntry.id e) = Some "" →
     CategoryEntry.displayName e = Some (CategoryEntry.id e))
  ∧ (Js.getOwn displayNames_part_000 (CategoryEntry.id e) = None →
     CategoryEntry.id e ∉ Js.ObjectPrototypeKeys →
     CategoryEntry.displayName e = Some (CategoryEntry.id e))
  ∧ (CategoryEntry.displayName e = None ↔
     Js.getOwn displayNames_part_000 (CategoryEntry.id e) = None
     ∧ CategoryEntry.id e ∈ Js.ObjectPrototypeKeys).
Proof.
  apply (category_display_names Sample.programmingTermsDatabase
           displayNames_part_000
           (CategoryEntry.mk "javascript" "javascript" 2 (Some "JavaScript核心"))).
  vm_compute. left.
Defined.

(** X12, instance: [byCategory] of the excerpt. *)
Lemma byCategory_lists_every_category_witness :
  StatsBody.byCategory (api_stats Sample.programmingTermsDatabase "now")
  = (λ kv, (kv.1, length kv.2)) <$> Sample.programmingTermsDatabase
  ∧ sum_list (Js.values
                (StatsBody.byCategory
                   (api_stats Sample.programmingTermsDatabase "now")))
    = StatsBody.totalTerms (api_stats Sample.programmingTermsDatabase "now").
Proof.
  apply (byCategory_lists_every_category Sample.programmingTermsDatabase "now"
           Sample_keys_NoDup).
Defined.

(** X14, instance: the id [ds_1], carried by a term of [datascience] and by
    a later term of [datastructures]. *)
Lemma detail_answers_first_term_with_id_witness :
  ∃ pre term post,
    allTerms Sample.programmingTermsDatabase = pre ++ term :: post
    ∧ Term.id term = "ds_1"
    ∧ (∀ t, t ∈ pre → Term.id t ≠ "ds_1")
    ∧ api_terms_id Sample.programmingTermsDatabase "ds_1"
      = Reply 200
          (JObject
             (Js.set (termObject term) "relatedTerms"
                (JArray (relatedRef
                           <$> relatedTerms Sample.programmingTermsDatabase
                                 term)))).
Proof.
  apply (detail_answers_first_term_with_id Sample.programmingTermsDatabase
           "ds_1").
  vm_compute. right. right. left.
Defined.

(** X15, instance: a sample of the excerpt with an unreadable count. *)
Lemma random_sample_within_catalog_witness :
  (∀ t, t ∈ api_random Sample.programmingTermsDatabase (list bool)
              Sample.sortRandom [true; false] (Some "many")
        → t ∈ allTerms Sample.programmingTermsDatabase)
  ∧ (length (api_random Sample.programmingTermsDatabase (list bool)
               Sample.sortRandom [true; false] (Some "many"))
     ≤ length (allTerms Sample.programmingTermsDatabase))%nat
  ∧ (Js.parseInt (default "1" (Some "many")) = Js.NaN →
     api_random Sample.programmingTermsDatabase (list bool)
       Sample.sortRandom [true; false] (Some "many") = [])
  ∧ (Some "many" = None → allTerms Sample.programmingTermsDatabase ≠ [] →
     length (api_random Sample.programmingTermsDatabase (list bool)
               Sample.sortRandom [true; false] (Some "many")) = 1).
Proof.
  apply (random_sample_within_catalog Sample.programmingTermsDatabase
           (list bool) Sample.sortRandom Sample_sortRandom_Permutation
           [true; false] (Some "many")).
Defined.

(** ** Evaluations *)

Example parseInt_1 : Js.parseInt "50" = Js.Num 50. Proof. reflexivity. Qed.
Example parseInt_2 : Js.parseInt " -12abc" = Js.Num (-12). Proof. reflexivity. Qed.
Example parseInt_3 : Js.parseInt "0x1F" = Js.Num 31. Proof. reflexivity. Qed.
Example parseInt_4 : Js.parseInt "abc" = Js.NaN. Proof. reflexivity. Qed.
Example parseInt_5 : Js.parseInt "" = Js.NaN. Proof. reflexivity. Qed.
Example includes_1 : Js.includes "closure" "los" = true. Proof. reflexivity. Qed.
Example includes_2 : Js.includes "closure" "" = true. Proof. reflexivity. Qed.
Example includes_3 : Js.includes "闭包" "包" = true. Proof. reflexivity. Qed.
Example slice_1 : Js.slice [1;2;3;4] (Js.Num (-1)) (Js.Num 49) = [4]. Proof. reflexivity. Qed.
Example slice_2 : Js.slice [1;2;3;4] (Js.Num 0) (Js.Num (-1)) = [1;2;3]. Proof. reflexivity. Qed.
Example slice_3 : Js.slice [1;2;3;4] Js.NaN Js.NaN = []. Proof. reflexivity. Qed.
Example get_1 : Js.get [("a", 1)] "constructor" = Js.Inherited. Proof. reflexivity. Qed.

Example detail_js_1 :
  api_terms_id Sample.programmingTermsDatabase "js_1"
  = Reply 200
      (JObject
         (Js.set (termObject Sample.js_1) "relatedTerms"
            (JArray [relatedRef Sample.js_2]))).
Proof. reflexivity. Qed.

Example detail_unknown_id :
  api_terms_id Sample.programmingTermsDatabase "js_0"
  = Reply 404 (JObject [ ("error", JString "Term not found") ]).
Proof. reflexivity. Qed.

Example stats_of_excerpt :
  StatsBody.byDifficulty (api_stats Sample.programmingTermsDatabase "now")
  = StatsBody.mkCounts 1 2 1
  ∧ StatsBody.byCategory (api_stats Sample.programmingTermsDatabase "now")
    = [ ("javascript", 2); ("datascience", 1); ("datastructures", 1) ].
Proof. split; reflexivity. Qed.

Example trim_1 : Js.trim "  closure  " = "closure". Proof. reflexivity. Qed.

Example detail_of_repeated_id :
  Js.getOwn
    (match body (api_terms_id Sample.programmingTermsDatabase "ds_1") with
     | JObject o => o
     | _ => []
     end) "name"
  = Some (JString "machine_learning").
Proof. reflexivity. Qed.

Example categories_of_excerpt :
  api_categories Sample.programmingTermsDatabase
  = [ CategoryEntry.mk "javascript" "javascript" 2 (Some "JavaScript核心");
      CategoryEntry.mk "datascience" "datascience" 1 (Some "数据科学");
      CategoryEntry.mk "datastructures" "datastructures" 1 (Some "数据结构") ].
Proof. reflexivity. Qed.

Example categories_of_excerpt_part_000 :
  CategoryEntry.displayName
    <$> api_categories_part_000 Sample.programmingTermsDatabase
  = [ Some "JavaScript核心"; Some "datascience"; Some "datastructures" ].
Proof. reflexivity. Qed.

Example list_with_inherited_category_in_production :
  get_api_terms Js.asciiToLowerCase Sample.programmingTermsDatabase
    (Some "production") (req.mkQuery (Some "toString") None None None None)
  = Failed (Reply 500
              (JObject [ ("error", JString "Internal server error");
                         ("message", JString "Something went wrong") ])).
Proof. reflexivity. Qed.
